(** * Telegram notification relay (main.py): shallow embedding and properties

    The program is a FastAPI application with one liveness route and five
    notification routes.  Every notification route formats its validated
    body into a text and hands it to [send_telegram], which performs one
    outbound POST to the Telegram bot API.

    Conventions of the embedding:
    - a Python [str] is a Rocq [string]; the non-ASCII markers of the
      templates are the UTF-8 bytes of the source file (a str with a lone
      surrogate has no such bytes and is outside the model);
    - [os.getenv] returns [None] or a string: [option string];
    - the outbound transport is a function from the request to what httpx
      gives back, and every call is recorded in a log that the handlers
      thread through, so that "no outbound call" is a statement on the log;
    - an exception of the handler is the left summand of the result;
    - a JSON number with a fraction or an exponent is a Python [float], an
      IEEE 754 binary64: a primitive float. *)

From Stdlib Require Import String Ascii List ZArith Bool Lia.
From Stdlib Require Import Numbers.DecimalString Numbers.DecimalPos Numbers.DecimalZ.
From Stdlib Require Floats.PrimFloat.
Import ListNotations.
Open Scope string_scope.
Set Warnings "-register-all".

(** ** Python strings *)

Module PyStr.

(** [s.startswith(p)] with the arguments swapped: [p] is a prefix of [s]. *)
Fixpoint starts_with (p s : string) : bool :=
  match p, s with
  | EmptyString, _ => true
  | String _ _, EmptyString => false
  | String a p', String b s' => if Ascii.eqb a b then starts_with p' s' else false
  end.

(** [needle in hay]. *)
Fixpoint str_in (needle hay : string) : bool :=
  starts_with needle hay ||
  match hay with
  | EmptyString => false
  | String _ rest => str_in needle rest
  end.

(** Number of positions of [hay] at which [needle] starts.  For a needle
    that cannot overlap itself (such as YES and NO) this is
    [hay.count(needle)]. *)
Fixpoint occurrences (needle hay : string) : nat :=
  (if starts_with needle hay then 1 else 0) +
  match hay with
  | EmptyString => 0
  | String _ rest => occurrences needle rest
  end.

(** The specification's "contains as a verbatim substring". *)
Definition contains (needle hay : string) : Prop :=
  exists pre post, hay = pre ++ needle ++ post.

(** Membership of a character in a string. *)
Fixpoint has_char (c : ascii) (s : string) : bool :=
  match s with
  | EmptyString => false
  | String a s' => Ascii.eqb c a || has_char c s'
  end.

(** [x or default] on strings: the empty string is falsy. *)
Definition or_else (x default : string) : string :=
  match x with
  | EmptyString => default
  | String _ _ => x
  end.

(** [str(n)] for an [int]. *)
Definition str_of_int (n : Z) : string :=
  NilZero.string_of_int (Z.to_int n).

(** [str(b)] for a [bool]. *)
Definition str_of_bool (b : bool) : string :=
  if b then "True" else "False".

(** Truthiness of an optional string ([None] and the empty string are
    falsy). *)
Definition truthy (x : option string) : bool :=
  match x with
  | None => false
  | Some EmptyString => false
  | Some (String _ _) => true
  end.

(** The value interpolated by an f-string for an optional string. *)
Definition fmt_opt (x : option string) : string :=
  match x with
  | None => "None"
  | Some s => s
  end.

(** Everything after the first line feed (the whole string has one line
    when there is none, and nothing follows it). *)
Fixpoint after_first_line (s : string) : string :=
  match s with
  | EmptyString => EmptyString
  | String c rest =>
      if Ascii.eqb c "010"%char then rest else after_first_line rest
  end.

(** The first line, without its line feed. *)
Fixpoint first_line (s : string) : string :=
  match s with
  | EmptyString => EmptyString
  | String c rest =>
      if Ascii.eqb c "010"%char then EmptyString else String c (first_line rest)
  end.

End PyStr.

(** The line feed written \n in the templates. *)
Definition nl : string := String "010"%char EmptyString.

(** ** JSON values, as [json.loads] gives them *)

Inductive json : Type :=
| JNull
| JBool (b : bool)
| JInt (n : Z)
| JFloat (x : PrimFloat.float)
| JStr (s : string)
| JList (l : list json)
| JDict (d : list (string * json)).

(** No number of the value is NaN or infinite.  [json.loads] produces such
    numbers (from an exponent out of range such as 1e999, or from the
    literals NaN and Infinity), and [json.dumps(..., allow_nan=False)], with
    which Starlette renders a response, raises on them. *)
Fixpoint json_finite (j : json) : bool :=
  match j with
  | JFloat x => PrimFloat.is_finite x
  | JList l => forallb json_finite l
  | JDict d => forallb (fun kv => json_finite (snd kv)) d
  | _ => true
  end.

(** [d.get(k)] on a parsed object; of two entries with one key the later one
    stands, as in [json.loads]. *)
Definition dict_get (k : string) (d : list (string * json)) : option json :=
  fold_left (fun acc kv => if String.eqb k (fst kv) then Some (snd kv) else acc)
            d None.

(** ** Environment variables (main.py, lines 27-30) *)

Record Config : Type := {
  BOT_TOKEN_NEW_USER : option string;
  BOT_TOKEN_QR : option string;
  BOT_TOKEN_ORDER : option string;
  CHAT_ID : option string
}.

(** The module-level assignments, run once when the module is imported;
    [getenv] is [os.getenv] on the environment of the process. *)
Definition load_config (getenv : string -> option string) : Config :=
  {| BOT_TOKEN_NEW_USER := getenv "BOT_TOKEN_NEW_USER";
     BOT_TOKEN_QR := getenv "BOT_TOKEN_QR";
     BOT_TOKEN_ORDER := getenv "BOT_TOKEN_ORDER";
     CHAT_ID := getenv "CHAT_ID" |}.

(** ** Pydantic models (main.py, lines 33-68) *)

Module NewUserNotification.
Record t : Type := {
  username : string;
  mobile : string;
  ip : string;
  profile_status : string
}.
End NewUserNotification.

Module QRPaymentStarted.
Record t : Type := {
  username : string;
  mobile : string;
  package : string;
  amount : string;
  ip : string;
  is_special : bool
}.
End QRPaymentStarted.

Module PaymentStarted.
Record t : Type := {
  username : string;
  mobile : string;
  package : string;
  amount : string;
  ip : string;
  method : string
}.
End PaymentStarted.

Module PaymentTimeEnded.
Record t : Type := {
  username : string;
  mobile : string;
  package : string;
  amount : string;
  ip : string;
  method : string
}.
End PaymentTimeEnded.

Module OrderNotification.
Record t : Type := {
  username : string;
  mobile : string;
  package : string;
  price : Z;
  ip : string
}.
End OrderNotification.

(** ** The outbound transport and the handler monad *)

(** What [client.post(url, json=payload, timeout=...)] is called with; the
    timeout is in seconds. *)
Record Request : Type := {
  req_url : string;
  req_json : json;
  req_timeout : Z
}.

(** An httpx response: its status, [resp.text], and what [resp.json()]
    gives: the decoded body, or the message of the exception it raises. *)
Record HttpxResponse : Type := {
  status_code : Z;
  resp_text : string;
  resp_json : string + json
}.

(** The outcome of the awaited [post]: a response, or an exception [e] of
    the transport (timeout, DNS, connection reset) with [str(e) = msg]. *)
Inductive PostResult : Type :=
| Responded (resp : HttpxResponse)
| TransportError (msg : string).

Definition Transport : Type := Request -> PostResult.

(** [fastapi.HTTPException(status_code, detail)]. *)
Record HTTPException : Type := {
  exc_status : Z;
  exc_detail : string
}.

(** A handler runs against a transport and the log of the outbound calls
    made so far; it extends the log and returns or raises. *)
Definition M (A : Type) : Type :=
  Transport -> list Request -> list Request * (HTTPException + A).

Definition ret {A : Type} (a : A) : M A :=
  fun _ log => (log, inr a).

Definition raise {A : Type} (e : HTTPException) : M A :=
  fun _ log => (log, inl e).

Definition bind {A B : Type} (m : M A) (k : A -> M B) : M B :=
  fun net log =>
    match m net log with
    | (log', inl e) => (log', inl e)
    | (log', inr a) => k a net log'
    end.

Notation "x <- m ;; k" := (bind m (fun x => k))
  (at level 61, m at next level, right associativity).

(** One outbound call: recorded, then answered by the transport. *)
Definition post (url : string) (payload : json) (timeout : Z) : M PostResult :=
  fun net log =>
    let rq := {| req_url := url; req_json := payload; req_timeout := timeout |} in
    ((log ++ [rq])%list, inr (net rq)).

(** [httpx.Response.is_success], the test of [raise_for_status] in current
    httpx: the call raises [HTTPStatusError] unless the status is 2xx. *)
Definition is_success (resp : HttpxResponse) : bool :=
  (200 <=? status_code resp)%Z && (status_code resp <=? 299)%Z.

(** The JSON value of an optional string ([None] is [null]). *)
Definition json_of_opt (x : option string) : json :=
  match x with
  | None => JNull
  | Some s => JStr s
  end.

(** ** send_telegram (main.py, lines 71-92) *)

Definition send_telegram (bot_token chat_id : option string) (text : string)
    (parse_mode : string) : M json :=
  if negb (PyStr.truthy bot_token) || negb (PyStr.truthy chat_id) then
    raise {| exc_status := 500%Z; exc_detail := "Missing Telegram credentials" |}
  else
    let url := "https://api.telegram.org/bot" ++ PyStr.fmt_opt bot_token
               ++ "/sendMessage" in
    let payload := JDict [("chat_id", json_of_opt chat_id);
                          ("text", JStr text);
                          ("parse_mode", JStr parse_mode)] in
    r <- post url payload 10%Z ;;
    match r with
    | Responded resp =>
        if is_success resp then
          match resp_json resp with
          | inr j => ret j
          | inl msg =>
              raise {| exc_status := 500%Z;
                       exc_detail := "Unexpected error: " ++ msg |}
          end
        else
          raise {| exc_status := 502%Z;
                   exc_detail := "Telegram API error: " ++ resp_text resp |}
    | TransportError msg =>
        raise {| exc_status := 500%Z; exc_detail := "Unexpected error: " ++ msg |}
    end.

(** ** The message texts (the local [text] of each handler) *)

(** notify_new_user, lines 107-113. *)
Definition new_user_text (data : NewUserNotification.t) : string :=
  "🔔 New User Submitted" ++ nl ++
  "👤 Username: " ++ NewUserNotification.username data ++ nl ++
  "📱 Mobile: " ++ NewUserNotification.mobile data ++ nl ++
  "🌐 IP: " ++ NewUserNotification.ip data ++ nl ++
  "📊 Status: " ++ NewUserNotification.profile_status data.

(** notify_qr_payment_started, line 123. *)
Definition special_text (data : QRPaymentStarted.t) : string :=
  if QRPaymentStarted.is_special data then "YES" else "NO".

(** notify_qr_payment_started, lines 124-132. *)
Definition qr_payment_started_text (data : QRPaymentStarted.t) : string :=
  "📲 <b>QR PAYMENT STARTED 🎉</b>" ++ nl ++
  "👤 Username: <code>"
    ++ PyStr.or_else (QRPaymentStarted.username data) "Unknown" ++ "</code>" ++ nl ++
  "📱 Mobile: <code>"
    ++ PyStr.or_else (QRPaymentStarted.mobile data) "Not Provided" ++ "</code>" ++ nl ++
  "📦 Package: <code>" ++ QRPaymentStarted.package data ++ "</code>" ++ nl ++
  "💰 Amount: <code>" ++ QRPaymentStarted.amount data ++ "</code>" ++ nl ++
  "🌐 IP: <code>" ++ QRPaymentStarted.ip data ++ "</code>" ++ nl ++
  "💎 Special User: <b>" ++ special_text data ++ "</b>".

(** notify_payment_started, lines 142-150. *)
Definition payment_started_text (data : PaymentStarted.t) : string :=
  "💳 <b>New UPI PAYMENT STARTED 🎉</b>" ++ nl ++ nl ++
  "👤 Username: <code>" ++ PaymentStarted.username data ++ "</code>" ++ nl ++
  "📱 Mobile: <code>"
    ++ PyStr.or_else (PaymentStarted.mobile data) "Not Provided" ++ "</code>" ++ nl ++
  "📦 Package: <code>" ++ PaymentStarted.package data ++ "</code>" ++ nl ++
  "💰 Amount: <code>₹" ++ PaymentStarted.amount data ++ "</code>" ++ nl ++
  "🏦 Payment Method: <b>" ++ PaymentStarted.method data ++ "</b>" ++ nl ++
  "🌐 IP: <code>" ++ PaymentStarted.ip data ++ "</code>".

(** notify_payment_time_ended, lines 160-168. *)
Definition payment_time_ended_text (data : PaymentTimeEnded.t) : string :=
  "⚠️ <b>PAYMENT TIME ENDED</b>" ++ nl ++ nl ++
  "👤 Username: <code>" ++ PaymentTimeEnded.username data ++ "</code>" ++ nl ++
  "📱 Mobile: <code>"
    ++ PyStr.or_else (PaymentTimeEnded.mobile data) "Not Provided" ++ "</code>" ++ nl ++
  "📦 Package: <code>" ++ PaymentTimeEnded.package data ++ "</code>" ++ nl ++
  "💰 Amount: <code>₹" ++ PaymentTimeEnded.amount data ++ "</code>" ++ nl ++
  "🏦 Payment Method: <b>" ++ PaymentTimeEnded.method data ++ "</b>" ++ nl ++
  "🌐 IP: <code>" ++ PaymentTimeEnded.ip data ++ "</code>".

(** notify_order, lines 178-185. *)
Definition order_text (data : OrderNotification.t) : string :=
  "🛒 <b>New Purchase Request</b>" ++ nl ++ nl ++
  "👤 Username: <code>" ++ OrderNotification.username data ++ "</code>" ++ nl ++
  "📱 Mobile: <code>"
    ++ PyStr.or_else (OrderNotification.mobile data) "Not Provided" ++ "</code>" ++ nl ++
  "📦 Package: " ++ OrderNotification.package data ++ nl ++
  "💰 Amount: ₹" ++ PyStr.str_of_int (OrderNotification.price data) ++ nl ++
  "🌐 IP: " ++ OrderNotification.ip data.

(** ** The handlers (main.py, lines 96-187) *)

(** The dict every notification handler returns. *)
Definition success_body (result : json) : json :=
  JDict [("success", JBool true); ("telegram_response", result)].

Definition health_check : M json :=
  ret (JDict [("status", JStr "ok"); ("service", JStr "Telegram Notifier")]).

Definition notify_new_user (cfg : Config) (data : NewUserNotification.t) : M json :=
  result <- send_telegram (BOT_TOKEN_NEW_USER cfg) (CHAT_ID cfg)
                          (new_user_text data) "HTML" ;;
  ret (success_body result).

Definition notify_qr_payment_started (cfg : Config) (data : QRPaymentStarted.t)
    : M json :=
  result <- send_telegram (BOT_TOKEN_QR cfg) (CHAT_ID cfg)
                          (qr_payment_started_text data) "HTML" ;;
  ret (success_body result).

Definition notify_payment_started (cfg : Config) (data : PaymentStarted.t)
    : M json :=
  result <- send_telegram (BOT_TOKEN_QR cfg) (CHAT_ID cfg)
                          (payment_started_text data) "HTML" ;;
  ret (success_body result).

Definition notify_payment_time_ended (cfg : Config) (data : PaymentTimeEnded.t)
    : M json :=
  result <- send_telegram (BOT_TOKEN_QR cfg) (CHAT_ID cfg)
                          (payment_time_ended_text data) "HTML" ;;
  ret (success_body result).

Definition notify_order (cfg : Config) (data : OrderNotification.t) : M json :=
  result <- send_telegram (BOT_TOKEN_ORDER cfg) (CHAT_ID cfg)
                          (order_text data) "HTML" ;;
  ret (success_body result).

(** ** Request validation and routing (the FastAPI layer)

    Every field of the five models is declared without a default, hence
    required.  The check below is the structural one: a field must be present
    and of its declared JSON type.  Pydantic agrees with it on a body whose
    declared fields are each missing, null or of exactly the declared type,
    and the statements on validation are about such bodies; what its lax mode
    makes of other values (a price sent as the string 499, a flag sent as 1)
    is not modelled.  The body is the JSON value that FastAPI has decoded:
    what it answers to bytes that do not decode is not modelled either. *)

(** The HTTP response handed back to the caller. *)
Record Response : Type := {
  status : Z;
  content : json
}.

(** The 422 of a body that fails validation; of each error only its
    location is kept. *)
Definition validation_error (fields : list string) : Response :=
  {| status := 422;
     content := JDict [("detail",
                  JList (map (fun f => JDict [("loc", JList [JStr "body"; JStr f])])
                             fields))] |}.

(** The 422 of a body that is no JSON object: one error, located at the
    body itself. *)
Definition body_error : Response :=
  {| status := 422;
     content := JDict [("detail", JList [JDict [("loc", JList [JStr "body"])]])] |}.

Inductive FieldType : Type := TStr | TInt | TBool.

Definition conforms (ty : FieldType) (v : json) : bool :=
  match ty, v with
  | TStr, JStr _ => true
  | TInt, JInt _ => true
  | TBool, JBool _ => true
  | _, _ => false
  end.

Definition field_ok (d : list (string * json)) (f : string * FieldType) : bool :=
  match dict_get (fst f) d with
  | Some v => conforms (snd f) v
  | None => false
  end.

(** The names of the fields that are missing or ill-typed. *)
Definition invalid_fields (schema : list (string * FieldType))
    (d : list (string * json)) : list string :=
  map fst (filter (fun f => negb (field_ok d f)) schema).

Definition str_field (d : list (string * json)) (k : string) : string :=
  match dict_get k d with Some (JStr s) => s | _ => "" end.

Definition int_field (d : list (string * json)) (k : string) : Z :=
  match dict_get k d with Some (JInt n) => n | _ => 0%Z end.

Definition bool_field (d : list (string * json)) (k : string) : bool :=
  match dict_get k d with Some (JBool b) => b | _ => false end.

(** Validation against a schema: the model's value, or the 422 that reports
    the failing fields (the body as a whole when it is no object). *)
Definition validate {A : Type} (schema : list (string * FieldType))
    (build : list (string * json) -> A) (body : json) : Response + A :=
  match body with
  | JDict d =>
      match invalid_fields schema d with
      | [] => inr (build d)
      | errs => inl (validation_error errs)
      end
  | _ => inl body_error
  end.

Definition new_user_schema : list (string * FieldType) :=
  [("username", TStr); ("mobile", TStr); ("ip", TStr); ("profile_status", TStr)].

Definition qr_payment_started_schema : list (string * FieldType) :=
  [("username", TStr); ("mobile", TStr); ("package", TStr); ("amount", TStr);
   ("ip", TStr); ("is_special", TBool)].

Definition payment_schema : list (string * FieldType) :=
  [("username", TStr); ("mobile", TStr); ("package", TStr); ("amount", TStr);
   ("ip", TStr); ("method", TStr)].

Definition order_schema : list (string * FieldType) :=
  [("username", TStr); ("mobile", TStr); ("package", TStr); ("price", TInt);
   ("ip", TStr)].

Definition validate_new_user : json -> Response + NewUserNotification.t :=
  validate new_user_schema (fun d =>
    {| NewUserNotification.username := str_field d "username";
       NewUserNotification.mobile := str_field d "mobile";
       NewUserNotification.ip := str_field d "ip";
       NewUserNotification.profile_status := str_field d "profile_status" |}).

Definition validate_qr_payment_started
    : json -> Response + QRPaymentStarted.t :=
  validate qr_payment_started_schema (fun d =>
    {| QRPaymentStarted.username := str_field d "username";
       QRPaymentStarted.mobile := str_field d "mobile";
       QRPaymentStarted.package := str_field d "package";
       QRPaymentStarted.amount := str_field d "amount";
       QRPaymentStarted.ip := str_field d "ip";
       QRPaymentStarted.is_special := bool_field d "is_special" |}).

Definition validate_payment_started : json -> Response + PaymentStarted.t :=
  validate payment_schema (fun d =>
    {| PaymentStarted.username := str_field d "username";
       PaymentStarted.mobile := str_field d "mobile";
       PaymentStarted.package := str_field d "package";
       PaymentStarted.amount := str_field d "amount";
       PaymentStarted.ip := str_field d "ip";
       PaymentStarted.method := str_field d "method" |}).

Definition validate_payment_time_ended
    : json -> Response + PaymentTimeEnded.t :=
  validate payment_schema (fun d =>
    {| PaymentTimeEnded.username := str_field d "username";
       PaymentTimeEnded.mobile := str_field d "mobile";
       PaymentTimeEnded.package := str_field d "package";
       PaymentTimeEnded.amount := str_field d "amount";
       PaymentTimeEnded.ip := str_field d "ip";
       PaymentTimeEnded.method := str_field d "method" |}).

Definition validate_order : json -> Response + OrderNotification.t :=
  validate order_schema (fun d =>
    {| OrderNotification.username := str_field d "username";
       OrderNotification.mobile := str_field d "mobile";
       OrderNotification.package := str_field d "package";
       OrderNotification.price := int_field d "price";
       OrderNotification.ip := str_field d "ip" |}).

(** What Starlette answers when the application raises anything but an
    [HTTPException]: a bare 500 whose body is the plain text Internal Server
    Error and no JSON, hence no content here. *)
Definition internal_server_error : Response :=
  {| status := 500; content := JNull |}.

(** A returned dict is rendered as JSON and served 200, unless it holds a
    number that is not finite: rendering then raises and the answer is the
    bare 500.  An [HTTPException] becomes its status with the detail as
    body. *)
Definition respond (r : HTTPException + json) : Response :=
  match r with
  | inr j =>
      if json_finite j then {| status := 200; content := j |}
      else internal_server_error
  | inl e => {| status := exc_status e;
                content := JDict [("detail", JStr (exc_detail e))] |}
  end.

(** A validated body, tagged with the notification route it came in on. *)
Inductive Payload : Type :=
| NewUser (data : NewUserNotification.t)
| QRStarted (data : QRPaymentStarted.t)
| PayStarted (data : PaymentStarted.t)
| PayTimeEnded (data : PaymentTimeEnded.t)
| Order (data : OrderNotification.t).

(** The handler FastAPI calls for a validated body. *)
Definition notify (cfg : Config) (p : Payload) : M json :=
  match p with
  | NewUser data => notify_new_user cfg data
  | QRStarted data => notify_qr_payment_started cfg data
  | PayStarted data => notify_payment_started cfg data
  | PayTimeEnded data => notify_payment_time_ended cfg data
  | Order data => notify_order cfg data
  end.

(** The routes declared by the decorators of main.py. *)
Inductive Route : Type :=
| RHealth | RNewUser | RQRStarted | RPayStarted | RPayTimeEnded | ROrder.

Definition route_method (r : Route) : string :=
  match r with RHealth => "GET" | _ => "POST" end.

Definition route_path (r : Route) : string :=
  match r with
  | RHealth => "/health"
  | RNewUser => "/api/notify/new-user"
  | RQRStarted => "/api/notify/qr-payment-started"
  | RPayStarted => "/api/notify/payment-started"
  | RPayTimeEnded => "/api/notify/payment-time-ended"
  | ROrder => "/api/notify/order"
  end.

(** Validation of the body of a notification route. *)
Definition parse_body (r : Route) (body : json) : option (Response + Payload) :=
  let tag {A} (c : A -> Payload) (v : Response + A) :=
    match v with inl resp => inl resp | inr a => inr (c a) end in
  match r with
  | RHealth => None
  | RNewUser => Some (tag NewUser (validate_new_user body))
  | RQRStarted => Some (tag QRStarted (validate_qr_payment_started body))
  | RPayStarted => Some (tag PayStarted (validate_payment_started body))
  | RPayTimeEnded => Some (tag PayTimeEnded (validate_payment_time_ended body))
  | ROrder => Some (tag Order (validate_order body))
  end.

(** One request served by the application: the outbound calls made and the
    response. *)
Definition app (cfg : Config) (r : Route) (body : json) (net : Transport)
    : list Request * Response :=
  match parse_body r body with
  | None =>
      let '(log, out) := health_check net [] in (log, respond out)
  | Some (inl resp) => ([], resp)
  | Some (inr p) =>
      let '(log, out) := notify cfg p net [] in (log, respond out)
  end.

(** The bot token a notification is sent with, as the handlers pick it. *)
Definition bot_token_of (cfg : Config) (p : Payload) : option string :=
  match p with
  | NewUser _ => BOT_TOKEN_NEW_USER cfg
  | QRStarted _ | PayStarted _ | PayTimeEnded _ => BOT_TOKEN_QR cfg
  | Order _ => BOT_TOKEN_ORDER cfg
  end.

(** The text of a notification. *)
Definition text_of (p : Payload) : string :=
  match p with
  | NewUser data => new_user_text data
  | QRStarted data => qr_payment_started_text data
  | PayStarted data => payment_started_text data
  | PayTimeEnded data => payment_time_ended_text data
  | Order data => order_text data
  end.

(** The values of the string fields of a validated body. *)
Definition string_fields (p : Payload) : list string :=
  match p with
  | NewUser d =>
      [NewUserNotification.username d; NewUserNotification.mobile d;
       NewUserNotification.ip d; NewUserNotification.profile_status d]
  | QRStarted d =>
      [QRPaymentStarted.username d; QRPaymentStarted.mobile d;
       QRPaymentStarted.package d; QRPaymentStarted.amount d;
       QRPaymentStarted.ip d]
  | PayStarted d =>
      [PaymentStarted.username d; PaymentStarted.mobile d;
       PaymentStarted.package d; PaymentStarted.amount d;
       PaymentStarted.ip d; PaymentStarted.method d]
  | PayTimeEnded d =>
      [PaymentTimeEnded.username d; PaymentTimeEnded.mobile d;
       PaymentTimeEnded.package d; PaymentTimeEnded.amount d;
       PaymentTimeEnded.ip d; PaymentTimeEnded.method d]
  | Order d =>
      [OrderNotification.username d; OrderNotification.mobile d;
       OrderNotification.package d; OrderNotification.ip d]
  end.

(** ** The relay in closed form *)

(** A credential is unset when the variable is absent or empty. *)
Definition unset (x : option string) : Prop := x = None \/ x = Some "".

(** The request [send_telegram] posts once its guard has passed. *)
Definition telegram_request (bot_token chat_id : option string)
    (text parse_mode : string) : Request :=
  {| req_url := "https://api.telegram.org/bot" ++ PyStr.fmt_opt bot_token
                ++ "/sendMessage";
     req_json := JDict [("chat_id", json_of_opt chat_id);
                        ("text", JStr text);
                        ("parse_mode", JStr parse_mode)];
     req_timeout := 10 |}.

(** What [send_telegram] turns the transport's answer into. *)
Definition relay_result (r : PostResult) : HTTPException + json :=
  match r with
  | Responded resp =>
      if is_success resp then
        match resp_json resp with
        | inr j => inr j
        | inl msg => inl {| exc_status := 500;
                            exc_detail := "Unexpected error: " ++ msg |}
        end
      else inl {| exc_status := 502;
                  exc_detail := "Telegram API error: " ++ resp_text resp |}
  | TransportError msg =>
      inl {| exc_status := 500; exc_detail := "Unexpected error: " ++ msg |}
  end.

(** ** The models as dicts *)


(** The route a validated body came in on. *)
Definition route_of (p : Payload) : Route :=
  match p with
  | NewUser _ => RNewUser
  | QRStarted _ => RQRStarted
  | PayStarted _ => RPayStarted
  | PayTimeEnded _ => RPayTimeEnded
  | Order _ => ROrder
  end.

(** The declared fields of a model with their values, in the order of the
    class body (pydantic's [model_dump]). *)
Definition model_dump (p : Payload) : list (string * json) :=
  match p with
  | NewUser d =>
      [("username", JStr (NewUserNotification.username d));
       ("mobile", JStr (NewUserNotification.mobile d));
       ("ip", JStr (NewUserNotification.ip d));
       ("profile_status", JStr (NewUserNotification.profile_status d))]
  | QRStarted d =>
      [("username", JStr (QRPaymentStarted.username d));
       ("mobile", JStr (QRPaymentStarted.mobile d));
       ("package", JStr (QRPaymentStarted.package d));
       ("amount", JStr (QRPaymentStarted.amount d));
       ("ip", JStr (QRPaymentStarted.ip d));
       ("is_special", JBool (QRPaymentStarted.is_special d))]
  | PayStarted d =>
      [("username", JStr (PaymentStarted.username d));
       ("mobile", JStr (PaymentStarted.mobile d));
       ("package", JStr (PaymentStarted.package d));
       ("amount", JStr (PaymentStarted.amount d));
       ("ip", JStr (PaymentStarted.ip d));
       ("method", JStr (PaymentStarted.method d))]
  | PayTimeEnded d =>
      [("username", JStr (PaymentTimeEnded.username d));
       ("mobile", JStr (PaymentTimeEnded.mobile d));
       ("package", JStr (PaymentTimeEnded.package d));
       ("amount", JStr (PaymentTimeEnded.amount d));
       ("ip", JStr (PaymentTimeEnded.ip d));
       ("method", JStr (PaymentTimeEnded.method d))]
  | Order d =>
      [("username", JStr (OrderNotification.username d));
       ("mobile", JStr (OrderNotification.mobile d));
       ("package", JStr (OrderNotification.package d));
       ("price", JInt (OrderNotification.price d));
       ("ip", JStr (OrderNotification.ip d))]
  end.

(** The mobile number of a body that has a fallback for it. *)
Definition mobile_with_fallback (p : Payload) : option string :=
  match p with
  | NewUser _ => None
  | QRStarted d => Some (QRPaymentStarted.mobile d)
  | PayStarted d => Some (PaymentStarted.mobile d)
  | PayTimeEnded d => Some (PaymentTimeEnded.mobile d)
  | Order d => Some (OrderNotification.mobile d)
  end.

(** The username of a body that is shown between code tags without any
    fallback. *)
Definition username_without_fallback (p : Payload) : option string :=
  match p with
  | NewUser _ | QRStarted _ => None
  | PayStarted d => Some (PaymentStarted.username d)
  | PayTimeEnded d => Some (PaymentTimeEnded.username d)
  | Order d => Some (OrderNotification.username d)
  end.

(** ** Sample inputs *)

Module Sample.

(** A stub transport on which every call times out. *)
Definition net_timeout : Transport := fun _ => TransportError "timed out".

(** A stub transport answering 200 with a body that is no JSON. *)
Definition net_html : Transport := fun _ =>
  Responded {| status_code := 200;
               resp_text := "<html>ok</html>";
               resp_json := inl "Expecting value: line 1 column 1 (char 0)" |}.

(** No token for orders, everything else configured. *)
Definition cfg_no_order : Config :=
  {| BOT_TOKEN_NEW_USER := Some "111:aaa"; BOT_TOKEN_QR := Some "222:bbb";
     BOT_TOKEN_ORDER := None; CHAT_ID := Some "-1001" |}.


Definition cfg : Config :=
  {| BOT_TOKEN_NEW_USER := Some "111:aaa"; BOT_TOKEN_QR := Some "222:bbb";
     BOT_TOKEN_ORDER := Some "333:ccc"; CHAT_ID := Some "-1001" |}.

(** No chat destination configured. *)
Definition cfg_no_chat : Config :=
  {| BOT_TOKEN_NEW_USER := Some "111:aaa"; BOT_TOKEN_QR := Some "222:bbb";
     BOT_TOKEN_ORDER := Some "333:ccc"; CHAT_ID := None |}.

(** An environment in which every variable holds its own name. *)
Definition env_named : string -> option string := fun name => Some name.

(** A stub transport answering every call with a 200 and a JSON body. *)
Definition net_ok : Transport := fun _ =>
  Responded {| status_code := 200;
               resp_text := "{}";
               resp_json := inr (JDict [("ok", JBool true)]) |}.



(** A stub transport answering every call with a 403. *)
Definition net_forbidden : Transport := fun _ =>
  Responded {| status_code := 403;
               resp_text := "Forbidden: bot was blocked by the user";
               resp_json := inr (JDict [("ok", JBool false)]) |}.

Definition new_user : NewUserNotification.t :=
  {| NewUserNotification.username := "alice";
     NewUserNotification.mobile := "";
     NewUserNotification.ip := "1.2.3.4";
     NewUserNotification.profile_status := "public" |}.

Definition qr : QRPaymentStarted.t :=
  {| QRPaymentStarted.username := "alice";
     QRPaymentStarted.mobile := "9999999999";
     QRPaymentStarted.package := "Gold";
     QRPaymentStarted.amount := "499";
     QRPaymentStarted.ip := "1.2.3.4";
     QRPaymentStarted.is_special := true |}.

(** A user whose name is the label itself. *)
Definition qr_yes : QRPaymentStarted.t :=
  {| QRPaymentStarted.username := "YES";
     QRPaymentStarted.mobile := "9999999999";
     QRPaymentStarted.package := "Gold";
     QRPaymentStarted.amount := "499";
     QRPaymentStarted.ip := "1.2.3.4";
     QRPaymentStarted.is_special := true |}.

(** Neither a username nor a mobile number given. *)
Definition qr_blank : QRPaymentStarted.t :=
  {| QRPaymentStarted.username := "";
     QRPaymentStarted.mobile := "";
     QRPaymentStarted.package := "Gold";
     QRPaymentStarted.amount := "499";
     QRPaymentStarted.ip := "1.2.3.4";
     QRPaymentStarted.is_special := false |}.

Definition new_user_blank : NewUserNotification.t :=
  {| NewUserNotification.username := "";
     NewUserNotification.mobile := "";
     NewUserNotification.ip := "1.2.3.4";
     NewUserNotification.profile_status := "public" |}.

Definition pay_started : PaymentStarted.t :=
  {| PaymentStarted.username := "alice";
     PaymentStarted.mobile := "";
     PaymentStarted.package := "Gold";
     PaymentStarted.amount := "499";
     PaymentStarted.ip := "1.2.3.4";
     PaymentStarted.method := "GPay" |}.

Definition pay_ended : PaymentTimeEnded.t :=
  {| PaymentTimeEnded.username := "alice";
     PaymentTimeEnded.mobile := "";
     PaymentTimeEnded.package := "Gold";
     PaymentTimeEnded.amount := "499";
     PaymentTimeEnded.ip := "1.2.3.4";
     PaymentTimeEnded.method := "GPay" |}.

Definition order : OrderNotification.t :=
  {| OrderNotification.username := "alice";
     OrderNotification.mobile := "";
     OrderNotification.package := "Gold";
     OrderNotification.price := 499;
     OrderNotification.ip := "1.2.3.4" |}.

(** The order body of the specification's example. *)
Definition order_body : json :=
  JDict [("username", JStr "alice"); ("mobile", JStr ""); ("package", JStr "Gold");
         ("price", JInt 499); ("ip", JStr "1.2.3.4")].


End Sample.

(** * Facts on strings *)

Module PyStrFacts.
Import PyStr.

Lemma append_assoc (a b c : string) : (a ++ b) ++ c = a ++ b ++ c.
Proof.
  induction a as [|x a IH]; simpl; [reflexivity | now rewrite IH].
Qed.

Lemma append_nil_r (a : string) : a ++ "" = a.
Proof.
  induction a as [|x a IH]; simpl; [reflexivity | now rewrite IH].
Qed.

Lemma starts_with_spec (p s : string) :
  starts_with p s = true <-> exists r, s = p ++ r.
Proof.
  revert s; induction p as [|a p IH]; intros s; simpl.
  - split; [intros _; now exists s | reflexivity].
  - destruct s as [|b s].
    + split; [discriminate | intros [r Hr]; discriminate].
    + destruct (Ascii.eqb_spec a b) as [->|Hab].
      * rewrite IH. split; intros [r Hr]; exists r; congruence.
      * split; [discriminate | intros [r Hr]; congruence].
Qed.

Lemma str_in_spec (needle hay : string) :
  str_in needle hay = true <-> contains needle hay.
Proof.
  split.
  - induction hay as [|c hay IH]; simpl; rewrite orb_true_iff.
    + intros [H|H]; [|discriminate].
      apply starts_with_spec in H as [r Hr]. now exists "", r.
    + intros [H|H].
      * apply starts_with_spec in H as [r Hr]. now exists "", r.
      * destruct (IH H) as (pre & post & E).
        exists (String c pre), post. simpl. now rewrite E.
  - intros (pre & post & E). subst hay.
    induction pre as [|c pre IH].
    + destruct (needle ++ post) eqn:E; simpl; apply orb_true_iff; left;
        apply starts_with_spec; exists post; now rewrite <- E.
    + cbn [append str_in]. rewrite IH. apply orb_true_r.
Qed.

Lemma contains_refl (s : string) : contains s s.
Proof. exists "", "". simpl. now rewrite append_nil_r. Qed.

Lemma contains_here (s r : string) : contains s (s ++ r).
Proof. now exists "", r. Qed.

Lemma contains_skip (s p t : string) : contains s t -> contains s (p ++ t).
Proof.
  intros (pre & post & ->). exists (p ++ pre), post.
  now rewrite append_assoc.
Qed.

Lemma contains_empty (t : string) : contains "" t.
Proof. now exists "", t. Qed.

(** A character that does not occur in the needle separates the search. *)
Lemma starts_with_sep (needle a b : string) (c : ascii) :
  has_char c needle = false ->
  starts_with needle (a ++ String c b) = starts_with needle a.
Proof.
  revert a; induction needle as [|n needle IH]; intros a H; [reflexivity|].
  simpl in H. apply orb_false_iff in H as [Hc Hn].
  destruct a as [|a0 a]; simpl.
  - rewrite Ascii.eqb_sym, Hc. reflexivity.
  - rewrite (IH a Hn). reflexivity.
Qed.

Lemma occurrences_sep (needle a b : string) (c : ascii) :
  has_char c needle = false ->
  occurrences needle (a ++ String c b)
  = occurrences needle a + occurrences needle b.
Proof.
  intros H. induction a as [|a0 a IH].
  - change ("" ++ String c b) with (String c b).
    cbn [occurrences].
    rewrite <- (starts_with_sep needle "" b c H). simpl. lia.
  - change (String a0 a ++ String c b) with (String a0 (a ++ String c b)).
    cbn [occurrences]. rewrite IH.
    change (String a0 (a ++ String c b)) with (String a0 a ++ String c b).
    rewrite (starts_with_sep needle (String a0 a) b c H). lia.
Qed.

Lemma occurrences_zero (needle hay : string) :
  occurrences needle hay = 0 <-> str_in needle hay = false.
Proof.
  induction hay as [|c hay IH]; simpl.
  - destruct (starts_with needle ""); simpl; split; (discriminate || reflexivity).
  - destruct (starts_with needle (String c hay)); simpl.
    + split; discriminate.
    + exact IH.
Qed.

Lemma not_contains_iff (needle hay : string) :
  ~ contains needle hay <-> occurrences needle hay = 0.
Proof.
  rewrite occurrences_zero, <- str_in_spec.
  destruct (str_in needle hay); split; congruence.
Qed.

Lemma contains_starts (needle hay : string) :
  starts_with needle hay = true -> contains needle hay.
Proof.
  intros H. apply starts_with_spec in H as [r ->]. apply contains_here.
Qed.

Lemma contains_or_else (x d r : string) : contains x (or_else x d ++ r).
Proof.
  destruct x; [apply contains_empty | apply contains_here].
Qed.

Lemma contains_or_else_end (x d : string) : contains x (or_else x d).
Proof.
  destruct x; [apply contains_empty | apply contains_refl].
Qed.

End PyStrFacts.

(** * The outbound relay *)

Section Relay.

Variables (bot_token chat_id : option string) (text parse_mode : string).
Variables (net : Transport) (log : list Request).

Lemma truthy_false_iff (x : option string) :
  PyStr.truthy x = false <-> unset x.
Proof.
  unfold unset. destruct x as [[|c s]|]; simpl; split; intros H;
    try reflexivity; try discriminate; auto;
    destruct H as [H|H]; discriminate.
Qed.

Lemma send_telegram_unset :
  unset bot_token \/ unset chat_id ->
  send_telegram bot_token chat_id text parse_mode net log
  = (log, inl {| exc_status := 500;
                 exc_detail := "Missing Telegram credentials" |}).
Proof.
  intros H. unfold send_telegram.
  destruct H as [H|H]; apply truthy_false_iff in H; rewrite H; simpl;
    [|rewrite orb_true_r]; reflexivity.
Qed.

Lemma send_telegram_set :
  PyStr.truthy bot_token = true -> PyStr.truthy chat_id = true ->
  let rq := telegram_request bot_token chat_id text parse_mode in
  send_telegram bot_token chat_id text parse_mode net log
  = ((log ++ [rq])%list, relay_result (net rq)).
Proof.
  intros Hb Hc rq. subst rq.
  unfold send_telegram, telegram_request, bind, post, relay_result, ret, raise.
  rewrite Hb, Hc. cbn [negb orb].
  destruct (net _) as [resp|msg]; [|reflexivity].
  destruct (is_success resp); [|reflexivity].
  destruct (resp_json resp); reflexivity.
Qed.

End Relay.

(** Every handler is the relay of its text with its token, followed by the
    success dict. *)
Lemma notify_eq (cfg : Config) (p : Payload) :
  notify cfg p
  = (result <- send_telegram (bot_token_of cfg p) (CHAT_ID cfg) (text_of p) "HTML" ;;
     ret (success_body result)).
Proof. destruct p; reflexivity. Qed.

Lemma notify_unset (cfg : Config) (p : Payload) (net : Transport)
    (log : list Request) :
  unset (bot_token_of cfg p) \/ unset (CHAT_ID cfg) ->
  notify cfg p net log
  = (log, inl {| exc_status := 500;
                 exc_detail := "Missing Telegram credentials" |}).
Proof.
  intros H. rewrite notify_eq. unfold bind.
  now rewrite send_telegram_unset.
Qed.

Lemma notify_set (cfg : Config) (p : Payload) (net : Transport)
    (log : list Request) :
  PyStr.truthy (bot_token_of cfg p) = true ->
  PyStr.truthy (CHAT_ID cfg) = true ->
  let rq := telegram_request (bot_token_of cfg p) (CHAT_ID cfg) (text_of p) "HTML" in
  notify cfg p net log
  = ((log ++ [rq])%list,
     match relay_result (net rq) with
     | inl e => inl e
     | inr j => inr (success_body j)
     end).
Proof.
  intros Hb Hc rq. rewrite notify_eq. unfold bind.
  rewrite send_telegram_set by assumption. fold rq.
  destruct (relay_result (net rq)); reflexivity.
Qed.

(** The calls a handler makes: none, or the one request of its relay. *)
Lemma notify_log (cfg : Config) (p : Payload) (net : Transport) :
  fst (notify cfg p net [])
  = if PyStr.truthy (bot_token_of cfg p) && PyStr.truthy (CHAT_ID cfg)
    then [telegram_request (bot_token_of cfg p) (CHAT_ID cfg) (text_of p) "HTML"]
    else [].
Proof.
  destruct (PyStr.truthy (bot_token_of cfg p)) eqn:Hb;
    [destruct (PyStr.truthy (CHAT_ID cfg)) eqn:Hc|]; simpl.
  - now rewrite notify_set.
  - rewrite notify_unset; [reflexivity|]. right. now apply truthy_false_iff.
  - rewrite notify_unset; [reflexivity|]. left. now apply truthy_false_iff.
Qed.

(** An outbound call of a handler was made with both credentials set, and
    it is the only one. *)
Lemma notify_called (cfg : Config) (p : Payload) (net : Transport) (rq : Request) :
  In rq (fst (notify cfg p net [])) ->
  PyStr.truthy (bot_token_of cfg p) = true /\
  PyStr.truthy (CHAT_ID cfg) = true /\
  rq = telegram_request (bot_token_of cfg p) (CHAT_ID cfg) (text_of p) "HTML".
Proof.
  rewrite notify_log.
  destruct (PyStr.truthy (bot_token_of cfg p)); simpl; [|tauto].
  destruct (PyStr.truthy (CHAT_ID cfg)); simpl; [|tauto].
  intros [H|[]]. auto.
Qed.

(** The order of the specification's example, end to end: one call with
    the rendered text, answered 200. *)
Example order_example :
  app Sample.cfg ROrder Sample.order_body Sample.net_ok
  = ([telegram_request (Some "333:ccc") (Some "-1001")
        ("🛒 <b>New Purchase Request</b>" ++ nl ++ nl ++
         "👤 Username: <code>alice</code>" ++ nl ++
         "📱 Mobile: <code>Not Provided</code>" ++ nl ++
         "📦 Package: Gold" ++ nl ++
         "💰 Amount: ₹499" ++ nl ++
         "🌐 IP: 1.2.3.4") "HTML"],
     {| status := 200;
        content := JDict [("success", JBool true);
                          ("telegram_response", JDict [("ok", JBool true)])] |}).
Proof. reflexivity. Qed.

(** A new-user text, with its empty mobile left empty. *)
Example new_user_example :
  new_user_text Sample.new_user
  = "🔔 New User Submitted" ++ nl ++
    "👤 Username: alice" ++ nl ++
    "📱 Mobile: " ++ nl ++
    "🌐 IP: 1.2.3.4" ++ nl ++
    "📊 Status: public".
Proof. reflexivity. Qed.

(** * The claims *)

(** C1. For every notification endpoint, when the bot token of the endpoint
    or the chat destination is unset or empty, the request fails with status
    500 and the fixed detail 'Missing Telegram credentials', and the handler
    makes no outbound call: the log of calls is left as it was. *)
Theorem missing_credentials_500_no_call (cfg : Config) (p : Payload)
    (net : Transport) (log : list Request) :
  unset (bot_token_of cfg p) \/ unset (CHAT_ID cfg) ->
  fst (notify cfg p net log) = log /\
  respond (snd (notify cfg p net log))
  = {| status := 500;
       content := JDict [("detail", JStr "Missing Telegram credentials")] |}.
Proof.
  intros H. rewrite (notify_unset cfg p net log H). split; reflexivity.
Qed.

Lemma missing_credentials_500_no_call_witness :
  (unset (bot_token_of Sample.cfg_no_chat (Order Sample.order))
   \/ unset (CHAT_ID Sample.cfg_no_chat)) /\
  fst (notify Sample.cfg_no_chat (Order Sample.order) Sample.net_ok []) = [] /\
  respond (snd (notify Sample.cfg_no_chat (Order Sample.order) Sample.net_ok []))
  = {| status := 500;
       content := JDict [("detail", JStr "Missing Telegram credentials")] |}.
Proof.
  assert (H : unset (bot_token_of Sample.cfg_no_chat (Order Sample.order))
              \/ unset (CHAT_ID Sample.cfg_no_chat))
    by (right; left; reflexivity).
  split; [exact H|].
  exact (missing_credentials_500_no_call Sample.cfg_no_chat (Order Sample.order)
           Sample.net_ok [] H).
Defined.

(** The same at the level of the application: a body that validates, sent
    to a notification route of a process without credentials, is answered
    500 with no outbound call. *)
Lemma app_missing_credentials (cfg : Config) (r : Route) (body : json)
    (p : Payload) (net : Transport) :
  parse_body r body = Some (inr p) ->
  unset (bot_token_of cfg p) \/ unset (CHAT_ID cfg) ->
  app cfg r body net
  = ([], {| status := 500;
            content := JDict [("detail", JStr "Missing Telegram credentials")] |}).
Proof.
  intros Hp H. unfold app. rewrite Hp, (notify_unset cfg p net [] H). reflexivity.
Qed.

(** C3. For every notification endpoint, when the outbound call is answered
    with a status outside 200..299, the endpoint responds 502 and the detail
    of the response is 'Telegram API error: ' followed by the text of the
    upstream response, which it therefore contains verbatim. *)
Theorem upstream_error_502 (cfg : Config) (p : Payload) (net : Transport)
    (rq : Request) (resp : HttpxResponse) :
  In rq (fst (notify cfg p net [])) ->
  net rq = Responded resp ->
  ~ (200 <= status_code resp <= 299)%Z ->
  exists detail,
    respond (snd (notify cfg p net []))
    = {| status := 502; content := JDict [("detail", JStr detail)] |} /\
    detail = "Telegram API error: " ++ resp_text resp /\
    PyStr.contains (resp_text resp) detail.
Proof.
  intros Hin Hnet Hst.
  destruct (notify_called cfg p net rq Hin) as (Hb & Hc & ->).
  rewrite (notify_set cfg p net [] Hb Hc). cbv zeta. rewrite Hnet.
  assert (Hs : is_success resp = false).
  { unfold is_success. apply andb_false_iff.
    destruct (Z.leb_spec 200 (status_code resp));
      destruct (Z.leb_spec (status_code resp) 299); auto; lia. }
  unfold relay_result. rewrite Hs.
  exists ("Telegram API error: " ++ resp_text resp).
  repeat split. apply PyStrFacts.contains_skip, PyStrFacts.contains_refl.
Qed.

Lemma upstream_error_502_witness :
  exists detail,
    respond (snd (notify Sample.cfg (Order Sample.order) Sample.net_forbidden []))
    = {| status := 502; content := JDict [("detail", JStr detail)] |} /\
    detail = "Telegram API error: Forbidden: bot was blocked by the user" /\
    PyStr.contains "Forbidden: bot was blocked by the user" detail.
Proof.
  refine (upstream_error_502 Sample.cfg (Order Sample.order) Sample.net_forbidden
            (telegram_request (Some "333:ccc") (Some "-1001")
               (order_text Sample.order) "HTML")
            {| status_code := 403;
               resp_text := "Forbidden: bot was blocked by the user";
               resp_json := inr (JDict [("ok", JBool false)]) |} _ _ _).
  - left. reflexivity.
  - reflexivity.
  - simpl. lia.
Defined.





(** C8. GET /health is answered 200 with the body of the two keys status
    ('ok') and service ('Telegram Notifier'), whatever the configuration,
    the body sent and the transport, and without any outbound call. *)
Theorem health_always_ok (cfg : Config) (body : json) (net : Transport) :
  route_method RHealth = "GET" /\
  route_path RHealth = "/health" /\
  app cfg RHealth body net
  = ([], {| status := 200;
            content := JDict [("status", JStr "ok");
                              ("service", JStr "Telegram Notifier")] |}).
Proof. repeat split. Qed.

(** The three families that post through BOT_TOKEN_QR. *)
Lemma qr_token_shared (cfg : Config) (q : QRPaymentStarted.t)
    (s : PaymentStarted.t) (e : PaymentTimeEnded.t) :
  bot_token_of cfg (QRStarted q) = BOT_TOKEN_QR cfg /\
  bot_token_of cfg (PayStarted s) = BOT_TOKEN_QR cfg /\
  bot_token_of cfg (PayTimeEnded e) = BOT_TOKEN_QR cfg.
Proof. repeat split. Qed.

(** C4, as the claim states it, fails.  In the environment where every
    variable holds its own name (so that all configured values differ), the
    three families qr-payment-started, payment-started and payment-time-ended
    post with one and the same token, not just two of them; and no four
    endpoints post with four different tokens. *)
Lemma four_tokens_counterexample :
  let cfg := load_config Sample.env_named in
  (bot_token_of cfg (QRStarted Sample.qr) = bot_token_of cfg (PayStarted Sample.pay_started)
   /\ bot_token_of cfg (PayStarted Sample.pay_started)
      = bot_token_of cfg (PayTimeEnded Sample.pay_ended)
   /\ bot_token_of cfg (QRStarted Sample.qr) = Some "BOT_TOKEN_QR")
  /\
  ~ (exists p1 p2 p3 p4 : Payload,
       bot_token_of cfg p1 <> bot_token_of cfg p2 /\
       bot_token_of cfg p1 <> bot_token_of cfg p3 /\
       bot_token_of cfg p1 <> bot_token_of cfg p4 /\
       bot_token_of cfg p2 <> bot_token_of cfg p3 /\
       bot_token_of cfg p2 <> bot_token_of cfg p4 /\
       bot_token_of cfg p3 <> bot_token_of cfg p4).
Proof.
  cbv zeta. split; [repeat split|].
  intros (p1 & p2 & p3 & p4 & H12 & H13 & H14 & H23 & H24 & H34).
  destruct p1, p2; simpl in H12; try (now apply H12);
    destruct p3; simpl in H13, H23; try (now apply H13); try (now apply H23);
    destruct p4; simpl in H14, H24, H34;
    (now apply H14) || (now apply H24) || (now apply H34).
Qed.

(** C4, amended.  The configuration is read from four environment
    variables, three of them bot tokens: BOT_TOKEN_NEW_USER, BOT_TOKEN_QR and
    BOT_TOKEN_ORDER, and the chat destination CHAT_ID.  The new-user endpoint
    posts with the first token, the order endpoint with the third, and the
    three endpoints qr-payment-started, payment-started and
    payment-time-ended with BOT_TOKEN_QR; every endpoint posts to the one
    chat destination.  The calls made are none when a credential is unset
    and otherwise the single request to the URL of that token. *)
Theorem three_tokens_by_family (getenv : string -> option string) (p : Payload)
    (net : Transport) :
  let cfg := load_config getenv in
  let token :=
    match p with
    | NewUser _ => getenv "BOT_TOKEN_NEW_USER"
    | QRStarted _ | PayStarted _ | PayTimeEnded _ => getenv "BOT_TOKEN_QR"
    | Order _ => getenv "BOT_TOKEN_ORDER"
    end in
  cfg = {| BOT_TOKEN_NEW_USER := getenv "BOT_TOKEN_NEW_USER";
           BOT_TOKEN_QR := getenv "BOT_TOKEN_QR";
           BOT_TOKEN_ORDER := getenv "BOT_TOKEN_ORDER";
           CHAT_ID := getenv "CHAT_ID" |} /\
  notify cfg p
  = (result <- send_telegram token (getenv "CHAT_ID") (text_of p) "HTML" ;;
     ret (success_body result)) /\
  fst (notify cfg p net [])
  = if PyStr.truthy token && PyStr.truthy (getenv "CHAT_ID")
    then [{| req_url := "https://api.telegram.org/bot" ++ PyStr.fmt_opt token
                        ++ "/sendMessage";
             req_json := JDict [("chat_id", json_of_opt (getenv "CHAT_ID"));
                                ("text", JStr (text_of p));
                                ("parse_mode", JStr "HTML")];
             req_timeout := 10 |}]
    else [].
Proof.
  cbv zeta. split; [reflexivity|]. split.
  - rewrite notify_eq. destruct p; reflexivity.
  - rewrite notify_log. destruct p; reflexivity.
Qed.

(** C9. For equal username, mobile, package, amount, ip and method, the
    texts of payment-started and payment-time-ended differ in their first
    line only, and both handlers relay their text with the same bot token
    (BOT_TOKEN_QR), the same chat destination and the mode 'HTML', so that
    the requests they post agree on URL, chat_id and parse_mode. *)
Theorem payment_started_ended_agree (cfg : Config) (net : Transport)
    (username mobile package amount ip method : string) :
  let s := {| PaymentStarted.username := username;
              PaymentStarted.mobile := mobile;
              PaymentStarted.package := package;
              PaymentStarted.amount := amount;
              PaymentStarted.ip := ip;
              PaymentStarted.method := method |} in
  let e := {| PaymentTimeEnded.username := username;
              PaymentTimeEnded.mobile := mobile;
              PaymentTimeEnded.package := package;
              PaymentTimeEnded.amount := amount;
              PaymentTimeEnded.ip := ip;
              PaymentTimeEnded.method := method |} in
  PyStr.first_line (payment_started_text s) = "💳 <b>New UPI PAYMENT STARTED 🎉</b>" /\
  PyStr.first_line (payment_time_ended_text e) = "⚠️ <b>PAYMENT TIME ENDED</b>" /\
  PyStr.after_first_line (payment_started_text s)
  = PyStr.after_first_line (payment_time_ended_text e) /\
  notify_payment_started cfg s
  = (result <- send_telegram (BOT_TOKEN_QR cfg) (CHAT_ID cfg)
                 (payment_started_text s) "HTML" ;;
     ret (success_body result)) /\
  notify_payment_time_ended cfg e
  = (result <- send_telegram (BOT_TOKEN_QR cfg) (CHAT_ID cfg)
                 (payment_time_ended_text e) "HTML" ;;
     ret (success_body result)) /\
  map req_url (fst (notify_payment_started cfg s net []))
  = map req_url (fst (notify_payment_time_ended cfg e net [])) /\
  map (fun rq => match req_json rq with
                 | JDict d => (dict_get "chat_id" d, dict_get "parse_mode" d)
                 | _ => (None, None)
                 end) (fst (notify_payment_started cfg s net []))
  = map (fun rq => match req_json rq with
                   | JDict d => (dict_get "chat_id" d, dict_get "parse_mode" d)
                   | _ => (None, None)
                   end) (fst (notify_payment_time_ended cfg e net [])).
Proof.
  cbv zeta. repeat split.
  - change (notify_payment_started cfg ?s) with (notify cfg (PayStarted s)).
    change (notify_payment_time_ended cfg ?e) with (notify cfg (PayTimeEnded e)).
    rewrite !notify_log. cbn [bot_token_of].
    destruct (PyStr.truthy (BOT_TOKEN_QR cfg) && PyStr.truthy (CHAT_ID cfg));
      reflexivity.
  - change (notify_payment_started cfg ?s) with (notify cfg (PayStarted s)).
    change (notify_payment_time_ended cfg ?e) with (notify cfg (PayTimeEnded e)).
    rewrite !notify_log. cbn [bot_token_of].
    destruct (PyStr.truthy (BOT_TOKEN_QR cfg) && PyStr.truthy (CHAT_ID cfg));
      reflexivity.
Qed.

(** * The texts *)

(** A field interpolated somewhere in a template. *)
Ltac find_field :=
  solve [ apply PyStrFacts.contains_refl
        | apply PyStrFacts.contains_here
        | apply PyStrFacts.contains_or_else
        | apply PyStrFacts.contains_or_else_end
        | apply PyStrFacts.contains_skip; find_field ].

(** A fixed fragment that begins at a piece of a template. *)
Ltac find_fragment :=
  solve [ apply PyStrFacts.contains_starts; reflexivity
        | apply PyStrFacts.contains_skip; find_fragment ].

Ltac open_text :=
  unfold text_of, new_user_text, qr_payment_started_text, payment_started_text,
    payment_time_ended_text, order_text, special_text;
  cbn [NewUserNotification.username NewUserNotification.mobile
       NewUserNotification.ip NewUserNotification.profile_status
       QRPaymentStarted.username QRPaymentStarted.mobile QRPaymentStarted.package
       QRPaymentStarted.amount QRPaymentStarted.ip QRPaymentStarted.is_special
       PaymentStarted.username PaymentStarted.mobile PaymentStarted.package
       PaymentStarted.amount PaymentStarted.ip PaymentStarted.method
       PaymentTimeEnded.username PaymentTimeEnded.mobile PaymentTimeEnded.package
       PaymentTimeEnded.amount PaymentTimeEnded.ip PaymentTimeEnded.method
       OrderNotification.username OrderNotification.mobile
       OrderNotification.package OrderNotification.price OrderNotification.ip
       PyStr.or_else].

(** Every string field is interpolated, verbatim unless it is empty and has
    a fallback (the empty string is then contained all the same). *)
Lemma string_fields_in_text (p : Payload) :
  Forall (fun v => PyStr.contains v (text_of p)) (string_fields p).
Proof.
  destruct p as [d|d|d|d|d]; destruct d; unfold string_fields; open_text;
    repeat (apply Forall_cons; [find_field|]); apply Forall_nil.
Qed.

(** The price of an order is interpolated as its decimal digits. *)
Lemma price_in_text (d : OrderNotification.t) :
  PyStr.contains ("💰 Amount: ₹" ++ PyStr.str_of_int (OrderNotification.price d))
                 (order_text d).
Proof.
  destruct d. open_text.
  repeat lazymatch goal with
         | |- PyStr.contains _ ("💰 Amount: ₹" ++ _) => fail
         | |- _ => apply PyStrFacts.contains_skip
         end.
  match goal with
  | |- PyStr.contains _ (_ ++ _ ++ ?r) =>
      exists "", r; now rewrite PyStrFacts.append_assoc
  end.
Qed.

(** The flag of a QR payment is interpolated as its label. *)
Lemma special_in_text (d : QRPaymentStarted.t) :
  PyStr.contains ("💎 Special User: <b>" ++ special_text d ++ "</b>")
                 (qr_payment_started_text d).
Proof.
  destruct d as [u m pk am i []]; open_text; find_fragment.
Qed.

(** Counting a label through a template: the literal pieces are scanned,
    and each interpolated field is split off at the separator after it. *)
Ltac count_step :=
  first [ rewrite PyStrFacts.occurrences_sep by reflexivity
        | progress cbn [PyStr.occurrences PyStr.starts_with append Ascii.eqb
                        Bool.eqb andb Nat.add] ].

Ltac count_labels := unfold nl; repeat count_step.

Section QRLabels.

Variables (u m pk am i : string) (sp : bool).

(** The template itself holds YES once when the flag is set and never
    otherwise; every other occurrence comes from a field. *)
Lemma qr_count_yes :
  PyStr.occurrences "YES"
    (qr_payment_started_text
       {| QRPaymentStarted.username := u; QRPaymentStarted.mobile := m;
          QRPaymentStarted.package := pk; QRPaymentStarted.amount := am;
          QRPaymentStarted.ip := i; QRPaymentStarted.is_special := sp |})
  = PyStr.occurrences "YES" (PyStr.or_else u "Unknown")
    + PyStr.occurrences "YES" (PyStr.or_else m "Not Provided")
    + PyStr.occurrences "YES" pk + PyStr.occurrences "YES" am
    + PyStr.occurrences "YES" i + (if sp then 1 else 0).
Proof.
  open_text.
  generalize (PyStr.or_else u "Unknown") (PyStr.or_else m "Not Provided").
  intros U M. count_labels. destruct sp; cbn; lia.
Qed.

(** And NO once when the flag is not set. *)
Lemma qr_count_no :
  PyStr.occurrences "NO"
    (qr_payment_started_text
       {| QRPaymentStarted.username := u; QRPaymentStarted.mobile := m;
          QRPaymentStarted.package := pk; QRPaymentStarted.amount := am;
          QRPaymentStarted.ip := i; QRPaymentStarted.is_special := sp |})
  = PyStr.occurrences "NO" (PyStr.or_else u "Unknown")
    + PyStr.occurrences "NO" (PyStr.or_else m "Not Provided")
    + PyStr.occurrences "NO" pk + PyStr.occurrences "NO" am
    + PyStr.occurrences "NO" i + (if sp then 0 else 1).
Proof.
  open_text.
  generalize (PyStr.or_else u "Unknown") (PyStr.or_else m "Not Provided").
  intros U M. count_labels. destruct sp; cbn; lia.
Qed.

End QRLabels.

(** A fallback brings in neither label. *)
Lemma or_else_free (needle x dflt : string) :
  PyStr.occurrences needle dflt = 0 ->
  ~ PyStr.contains needle x ->
  PyStr.occurrences needle (PyStr.or_else x dflt) = 0.
Proof.
  intros Hd Hx. destruct x; [exact Hd|].
  now apply PyStrFacts.not_contains_iff.
Qed.

(** C2, as the claim states it, fails on the boolean field: the text of a
    qr-payment-started body whose is_special is true contains neither
    Python's rendering of the value (True) nor JSON's (true). *)
Lemma bool_field_counterexample :
  QRPaymentStarted.is_special Sample.qr = true /\
  ~ PyStr.contains (PyStr.str_of_bool (QRPaymentStarted.is_special Sample.qr))
                   (qr_payment_started_text Sample.qr) /\
  ~ PyStr.contains "true" (qr_payment_started_text Sample.qr).
Proof.
  split; [reflexivity|].
  split; apply PyStrFacts.not_contains_iff; vm_compute; reflexivity.
Qed.

(** C2, amended.  For each of the five endpoints and every validated body,
    the text contains the value of every string field as a verbatim
    substring; the integer price of an order appears as its decimal digits
    after the amount label; the boolean is_special of a QR payment appears
    as the label YES or NO, not as its value. *)
Theorem fields_rendered (p : Payload) :
  Forall (fun v => PyStr.contains v (text_of p)) (string_fields p) /\
  match p with
  | Order d =>
      PyStr.contains
        ("💰 Amount: ₹" ++ PyStr.str_of_int (OrderNotification.price d))
        (text_of p)
  | QRStarted d =>
      PyStr.contains
        ("💎 Special User: <b>"
           ++ (if QRPaymentStarted.is_special d then "YES" else "NO") ++ "</b>")
        (text_of p)
  | _ => True
  end.
Proof.
  split; [apply string_fields_in_text|].
  destruct p; try exact I.
  - apply special_in_text.
  - apply price_in_text.
Qed.

(** C6, as the claim states it, fails: a user named YES with the flag set
    gets a text with two occurrences of YES. *)
Lemma yes_twice_counterexample :
  QRPaymentStarted.is_special Sample.qr_yes = true /\
  PyStr.occurrences "YES" (qr_payment_started_text Sample.qr_yes) = 2.
Proof. split; vm_compute; reflexivity. Qed.

(** C6, amended.  For a qr-payment-started body none of whose string fields
    contains YES, the text contains YES exactly once when is_special is true
    (and not at all when it is false); likewise, when no string field contains
    NO, the text contains NO exactly once when is_special is false (and not
    at all when it is true). *)
Theorem special_label_once (d : QRPaymentStarted.t) :
  (Forall (fun v => ~ PyStr.contains "YES" v) (string_fields (QRStarted d)) ->
   PyStr.occurrences "YES" (qr_payment_started_text d)
   = if QRPaymentStarted.is_special d then 1 else 0) /\
  (Forall (fun v => ~ PyStr.contains "NO" v) (string_fields (QRStarted d)) ->
   PyStr.occurrences "NO" (qr_payment_started_text d)
   = if QRPaymentStarted.is_special d then 0 else 1).
Proof.
  destruct d as [u m pk am i sp].
  cbn [string_fields QRPaymentStarted.username QRPaymentStarted.mobile
       QRPaymentStarted.package QRPaymentStarted.amount QRPaymentStarted.ip
       QRPaymentStarted.is_special].
  split; intros Hf;
    inversion_clear Hf as [|? ? Hu Hf1]; inversion_clear Hf1 as [|? ? Hm Hf2];
    inversion_clear Hf2 as [|? ? Hpk Hf3]; inversion_clear Hf3 as [|? ? Ham Hf4];
    inversion_clear Hf4 as [|? ? Hi _];
    apply PyStrFacts.not_contains_iff in Hpk, Ham, Hi.
  - rewrite qr_count_yes, Hpk, Ham, Hi.
    rewrite (or_else_free "YES" u "Unknown" eq_refl Hu).
    rewrite (or_else_free "YES" m "Not Provided" eq_refl Hm).
    reflexivity.
  - rewrite qr_count_no, Hpk, Ham, Hi.
    rewrite (or_else_free "NO" u "Unknown" eq_refl Hu).
    rewrite (or_else_free "NO" m "Not Provided" eq_refl Hm).
    reflexivity.
Qed.

Lemma special_label_once_witness :
  QRPaymentStarted.is_special Sample.qr = true /\
  PyStr.occurrences "YES" (qr_payment_started_text Sample.qr) = 1 /\
  QRPaymentStarted.is_special Sample.qr_blank = false /\
  PyStr.occurrences "NO" (qr_payment_started_text Sample.qr_blank) = 1.
Proof.
  split; [reflexivity|]. split; [|split; [reflexivity|]].
  - apply (proj1 (special_label_once Sample.qr)).
    repeat (apply Forall_cons;
            [apply PyStrFacts.not_contains_iff; vm_compute; reflexivity|]).
    apply Forall_nil.
  - apply (proj2 (special_label_once Sample.qr_blank)).
    repeat (apply Forall_cons;
            [apply PyStrFacts.not_contains_iff; vm_compute; reflexivity|]).
    apply Forall_nil.
Defined.

(** ** Fallbacks *)












(** No placeholder in the template of new-user: whatever the body, the
    words of the two fallbacks occur in the text as often as in its fields. *)
Lemma new_user_count_not_provided (u m i st : string) :
  PyStr.occurrences "Not Provided"
    (new_user_text {| NewUserNotification.username := u;
                      NewUserNotification.mobile := m;
                      NewUserNotification.ip := i;
                      NewUserNotification.profile_status := st |})
  = PyStr.occurrences "Not Provided" u + PyStr.occurrences "Not Provided" m
    + PyStr.occurrences "Not Provided" i + PyStr.occurrences "Not Provided" st.
Proof. open_text. count_labels. lia. Qed.

Lemma new_user_count_unknown (u m i st : string) :
  PyStr.occurrences "Unknown"
    (new_user_text {| NewUserNotification.username := u;
                      NewUserNotification.mobile := m;
                      NewUserNotification.ip := i;
                      NewUserNotification.profile_status := st |})
  = PyStr.occurrences "Unknown" u + PyStr.occurrences "Unknown" m
    + PyStr.occurrences "Unknown" i + PyStr.occurrences "Unknown" st.
Proof. open_text. count_labels. lia. Qed.

(** C10. The new-user endpoint applies no fallback.  For a validated body
    with an empty mobile the text has the mobile label directly followed by
    the end of its line, and it holds 'Not Provided' only if another field
    of the body does; the same for an empty username and 'Unknown'.  The
    other four endpoints render an empty mobile as 'Not Provided'. *)
Theorem new_user_no_fallback (d : NewUserNotification.t) :
  (NewUserNotification.mobile d = "" ->
   PyStr.contains ("📱 Mobile: " ++ nl ++ "🌐 IP: ") (new_user_text d) /\
   (~ PyStr.contains "Not Provided" (NewUserNotification.username d) ->
    ~ PyStr.contains "Not Provided" (NewUserNotification.ip d) ->
    ~ PyStr.contains "Not Provided" (NewUserNotification.profile_status d) ->
    ~ PyStr.contains "Not Provided" (new_user_text d))) /\
  (NewUserNotification.username d = "" ->
   PyStr.contains ("👤 Username: " ++ nl ++ "📱 Mobile: ") (new_user_text d) /\
   (~ PyStr.contains "Unknown" (NewUserNotification.mobile d) ->
    ~ PyStr.contains "Unknown" (NewUserNotification.ip d) ->
    ~ PyStr.contains "Unknown" (NewUserNotification.profile_status d) ->
    ~ PyStr.contains "Unknown" (new_user_text d))) /\
  (forall p : Payload,
     match p with
     | NewUser _ => True
     | QRStarted q => QRPaymentStarted.mobile q = ""
     | PayStarted s => PaymentStarted.mobile s = ""
     | PayTimeEnded e => PaymentTimeEnded.mobile e = ""
     | Order o => OrderNotification.mobile o = ""
     end ->
     match p with
     | NewUser _ => True
     | _ => PyStr.contains "Not Provided" (text_of p)
     end).
Proof.
  destruct d as [u m i st]. open_text. split; [|split].
  - intros ->. split; [unfold nl; find_fragment|].
    intros Hu Hi Hst. apply PyStrFacts.not_contains_iff.
    apply PyStrFacts.not_contains_iff in Hu, Hi, Hst.
    pose proof (new_user_count_not_provided u "" i st) as H.
    unfold new_user_text in H. cbn [NewUserNotification.username
      NewUserNotification.mobile NewUserNotification.ip
      NewUserNotification.profile_status] in H.
    rewrite H, Hu, Hi, Hst. reflexivity.
  - intros ->. split; [unfold nl; find_fragment|].
    intros Hm Hi Hst. apply PyStrFacts.not_contains_iff.
    apply PyStrFacts.not_contains_iff in Hm, Hi, Hst.
    pose proof (new_user_count_unknown "" m i st) as H.
    unfold new_user_text in H. cbn [NewUserNotification.username
      NewUserNotification.mobile NewUserNotification.ip
      NewUserNotification.profile_status] in H.
    rewrite H, Hm, Hi, Hst. reflexivity.
  - intros [x|x|x|x|x] Hx; [exact I|..]; destruct x; cbn in Hx; subst;
      open_text; find_fragment.
Qed.

Lemma new_user_no_fallback_witness :
  PyStr.contains ("📱 Mobile: " ++ nl ++ "🌐 IP: ") (new_user_text Sample.new_user_blank) /\
  ~ PyStr.contains "Not Provided" (new_user_text Sample.new_user_blank) /\
  PyStr.contains ("👤 Username: " ++ nl ++ "📱 Mobile: ")
    (new_user_text Sample.new_user_blank) /\
  ~ PyStr.contains "Unknown" (new_user_text Sample.new_user_blank) /\
  PyStr.contains "Not Provided" (text_of (Order Sample.order)).
Proof.
  destruct (new_user_no_fallback Sample.new_user_blank) as (Hm & Hu & Hothers).
  destruct (Hm eq_refl) as (Hm1 & Hm2). destruct (Hu eq_refl) as (Hu1 & Hu2).
  repeat split.
  - exact Hm1.
  - apply Hm2; apply PyStrFacts.not_contains_iff; vm_compute; reflexivity.
  - exact Hu1.
  - apply Hu2; apply PyStrFacts.not_contains_iff; vm_compute; reflexivity.
  - exact (Hothers (Order Sample.order) eq_refl).
Defined.

(** * Further properties of the relay *)

Lemma is_success_iff (resp : HttpxResponse) :
  is_success resp = true <-> (200 <= status_code resp <= 299)%Z.
Proof.
  unfold is_success. rewrite andb_true_iff, !Z.leb_le. reflexivity.
Qed.

(** What a handler answers, read off the relay: the three ways it ends once
    the call has been made. *)
Lemma notify_outcome (cfg : Config) (p : Payload) (net : Transport) (rq : Request) :
  In rq (fst (notify cfg p net [])) ->
  fst (notify cfg p net []) = [rq] /\
  snd (notify cfg p net [])
  = match relay_result (net rq) with
    | inl e => inl e
    | inr j => inr (success_body j)
    end.
Proof.
  intros Hin. destruct (notify_called cfg p net rq Hin) as (Hb & Hc & ->).
  rewrite (notify_set cfg p net [] Hb Hc). split; reflexivity.
Qed.

(** X1. A failure of the transport (timeout, DNS, reset) on the one call
    of a handler is answered 500 with the detail 'Unexpected error: '
    followed by the message of the exception; the call is not repeated. *)
Theorem transport_failure_500 (cfg : Config) (p : Payload) (net : Transport)
    (rq : Request) (msg : string) :
  In rq (fst (notify cfg p net [])) ->
  net rq = TransportError msg ->
  fst (notify cfg p net []) = [rq] /\
  respond (snd (notify cfg p net []))
  = {| status := 500;
       content := JDict [("detail", JStr ("Unexpected error: " ++ msg))] |}.
Proof.
  intros Hin Hnet. destruct (notify_outcome cfg p net rq Hin) as [Hlog Hout].
  rewrite Hlog, Hout, Hnet. split; reflexivity.
Qed.

Lemma transport_failure_500_witness :
  fst (notify Sample.cfg (Order Sample.order) Sample.net_timeout [])
  = [telegram_request (Some "333:ccc") (Some "-1001") (order_text Sample.order) "HTML"]
  /\
  respond (snd (notify Sample.cfg (Order Sample.order) Sample.net_timeout []))
  = {| status := 500;
       content := JDict [("detail", JStr "Unexpected error: timed out")] |}.
Proof.
  refine (transport_failure_500 Sample.cfg (Order Sample.order) Sample.net_timeout
            (telegram_request (Some "333:ccc") (Some "-1001")
               (order_text Sample.order) "HTML") "timed out" _ _).
  - left. reflexivity.
  - reflexivity.
Defined.

(** X2. A 2xx answer whose body does not decode as JSON is not a success:
    the exception of [resp.json()] falls into the generic handler and the
    endpoint answers 500 with 'Unexpected error: ' and its message. *)
Theorem undecodable_answer_500 (cfg : Config) (p : Payload) (net : Transport)
    (rq : Request) (resp : HttpxResponse) (msg : string) :
  In rq (fst (notify cfg p net [])) ->
  net rq = Responded resp ->
  (200 <= status_code resp <= 299)%Z ->
  resp_json resp = inl msg ->
  respond (snd (notify cfg p net []))
  = {| status := 500;
       content := JDict [("detail", JStr ("Unexpected error: " ++ msg))] |}.
Proof.
  intros Hin Hnet Hst Hj. destruct (notify_outcome cfg p net rq Hin) as [_ Hout].
  rewrite Hout, Hnet. unfold relay_result.
  rewrite (proj2 (is_success_iff resp) Hst), Hj. reflexivity.
Qed.

Lemma undecodable_answer_500_witness :
  respond (snd (notify Sample.cfg (Order Sample.order) Sample.net_html []))
  = {| status := 500;
       content := JDict [("detail",
                    JStr "Unexpected error: Expecting value: line 1 column 1 (char 0)")] |}.
Proof.
  refine (undecodable_answer_500 Sample.cfg (Order Sample.order) Sample.net_html
            (telegram_request (Some "333:ccc") (Some "-1001")
               (order_text Sample.order) "HTML")
            {| status_code := 200; resp_text := "<html>ok</html>";
               resp_json := inl "Expecting value: line 1 column 1 (char 0)" |}
            "Expecting value: line 1 column 1 (char 0)" _ _ _ _).
  - left. reflexivity.
  - reflexivity.
  - simpl. lia.
  - reflexivity.
Defined.

(** The two ways a handler runs: stopped by the guard, or through the one
    call. *)
Lemma notify_cases (cfg : Config) (p : Payload) (net : Transport) :
  ((unset (bot_token_of cfg p) \/ unset (CHAT_ID cfg)) /\
   notify cfg p net []
   = ([], inl {| exc_status := 500;
                 exc_detail := "Missing Telegram credentials" |}))
  \/
  (let rq := telegram_request (bot_token_of cfg p) (CHAT_ID cfg) (text_of p) "HTML" in
   PyStr.truthy (bot_token_of cfg p) = true /\
   PyStr.truthy (CHAT_ID cfg) = true /\
   notify cfg p net []
   = ([rq], match relay_result (net rq) with
            | inl e => inl e
            | inr j => inr (success_body j)
            end)).
Proof.
  destruct (PyStr.truthy (bot_token_of cfg p)) eqn:Hb;
    [destruct (PyStr.truthy (CHAT_ID cfg)) eqn:Hc|].
  - right. cbv zeta. repeat split. now rewrite (notify_set cfg p net [] Hb Hc).
  - left. apply truthy_false_iff in Hc. split; [now right|].
    now rewrite (notify_unset cfg p net [] (or_intror Hc)).
  - left. apply truthy_false_iff in Hb. split; [now left|].
    now rewrite (notify_unset cfg p net [] (or_introl Hb)).
Qed.

(** X3. A handler makes at most one outbound call, whatever the validated
    body, the configuration and the transport (no retry, also after a
    failure); it makes none exactly when the token of its family or the chat
    destination is unset or empty. *)
Theorem at_most_one_call (cfg : Config) (p : Payload) (net : Transport) :
  length (fst (notify cfg p net [])) <= 1 /\
  (fst (notify cfg p net []) = [] <->
   unset (bot_token_of cfg p) \/ unset (CHAT_ID cfg)).
Proof.
  destruct (notify_cases cfg p net) as [[Hu E] | H].
  - rewrite E. cbn. split; [lia | tauto].
  - cbv zeta in H. destruct H as (Hb & Hc & E). rewrite E. cbn [fst length].
    split; [lia|]. split; [discriminate|].
    intros [Hu|Hu]; apply truthy_false_iff in Hu; congruence.
Qed.

(** X4. A request that reaches a handler is answered 200, 500 or 502, and
    nothing else. *)
Theorem status_codes (cfg : Config) (p : Payload) (net : Transport) :
  In (status (respond (snd (notify cfg p net [])))) [200; 500; 502]%Z.
Proof.
  destruct (notify_cases cfg p net) as [[_ E] | H].
  - rewrite E. cbn. tauto.
  - cbv zeta in H. destruct H as (_ & _ & E). rewrite E. cbn [snd].
    destruct (net _) as [resp|msg]; cbn [relay_result]; [|cbn; tauto].
    destruct (is_success resp); [|cbn; tauto].
    destruct (resp_json resp) as [msg|j]; [cbn; tauto|].
    unfold respond. destruct (json_finite (success_body j)); cbn; tauto.
Qed.



(** X6. A handler's request is answered 502 only when the one call that was
    made was answered with a status outside 200..299, and the detail is then
    'Telegram API error: ' followed by the text of that answer. *)
Theorem bad_gateway_only_after_upstream_error (cfg : Config) (p : Payload)
    (net : Transport) :
  status (respond (snd (notify cfg p net []))) = 502%Z ->
  exists rq resp,
    fst (notify cfg p net []) = [rq] /\
    net rq = Responded resp /\
    ~ (200 <= status_code resp <= 299)%Z /\
    content (respond (snd (notify cfg p net [])))
    = JDict [("detail", JStr ("Telegram API error: " ++ resp_text resp))].
Proof.
  intros Hst.
  destruct (notify_cases cfg p net) as [[_ E] | H].
  - rewrite E in Hst. discriminate.
  - cbv zeta in H. destruct H as (_ & _ & E). rewrite E in Hst |- *.
    cbn [fst snd] in *.
    destruct (net _) as [resp|msg] eqn:Hnet; cbn [relay_result] in *;
      [|discriminate].
    destruct (is_success resp) eqn:Hs.
    + destruct (resp_json resp) as [msg|j]; [discriminate|].
      unfold respond in Hst. destruct (json_finite (success_body j)); discriminate.
    + eexists _, resp. split; [reflexivity|]. split; [exact Hnet|].
      split; [|reflexivity]. intros H. apply is_success_iff in H. congruence.
Qed.

Lemma bad_gateway_only_after_upstream_error_witness :
  exists rq resp,
    fst (notify Sample.cfg (Order Sample.order) Sample.net_forbidden []) = [rq] /\
    Sample.net_forbidden rq = Responded resp /\
    ~ (200 <= status_code resp <= 299)%Z /\
    content (respond (snd (notify Sample.cfg (Order Sample.order)
                             Sample.net_forbidden [])))
    = JDict [("detail", JStr ("Telegram API error: " ++ resp_text resp))].
Proof.
  apply (bad_gateway_only_after_upstream_error Sample.cfg (Order Sample.order)
           Sample.net_forbidden).
  reflexivity.
Defined.



(** * Further properties of validation and routing *)


Ltac open_validators :=
  unfold validate_new_user, validate_qr_payment_started,
    validate_payment_started, validate_payment_time_ended, validate_order in *.



(** X9. A body that holds, under the name of every declared field of a
    model, a value of the declared type is accepted on the route of the
    model and gives the model with exactly these values; what else the body
    holds does not matter.  In particular the dict of a model round-trips. *)
Theorem well_typed_body_accepted (p : Payload) (d : list (string * json)) :
  (forall k v, In (k, v) (model_dump p) -> dict_get k d = Some v) ->
  parse_body (route_of p) (JDict d) = Some (inr p).
Proof.
  intros H.
  destruct p as [x|x|x|x|x]; destruct x; cbn [model_dump] in H;
    pose proof (H _ _ (or_introl eq_refl)) as H1;
    pose proof (H _ _ (or_intror (or_introl eq_refl))) as H2;
    pose proof (H _ _ (or_intror (or_intror (or_introl eq_refl)))) as H3;
    pose proof (H _ _ (or_intror (or_intror (or_intror (or_introl eq_refl))))) as H4;
    try pose proof (H _ _ (or_intror (or_intror (or_intror (or_intror
                     (or_introl eq_refl)))))) as H5;
    try pose proof (H _ _ (or_intror (or_intror (or_intror (or_intror
                     (or_intror (or_introl eq_refl))))))) as H6;
    cbn [route_of parse_body]; open_validators;
    unfold validate, invalid_fields, field_ok, str_field, int_field, bool_field,
      new_user_schema, qr_payment_started_schema, payment_schema, order_schema;
    cbn [filter map fst snd];
    rewrite ?H1, ?H2, ?H3, ?H4, ?H5, ?H6; reflexivity.
Qed.

Lemma well_typed_body_accepted_witness :
  parse_body ROrder
    (JDict [("price", JStr "0"); ("username", JStr "alice"); ("mobile", JStr "");
            ("package", JStr "Gold"); ("price", JInt 499); ("ip", JStr "1.2.3.4");
            ("coupon", JNull)])
  = Some (inr (Order Sample.order)).
Proof.
  apply (well_typed_body_accepted (Order Sample.order)).
  intros k v Hin. cbn in Hin.
  repeat (destruct Hin as [[= <- <-] | Hin]; [reflexivity|]). destruct Hin.
Defined.

(** The dict of a model, sent to the route of the model, validates to that
    very model. *)
Lemma model_dump_round_trip (p : Payload) :
  parse_body (route_of p) (JDict (model_dump p)) = Some (inr p).
Proof.
  destruct p as [d|d|d|d|d]; destruct d; reflexivity.
Qed.

(** * Further properties of the texts *)

(** X11. Every text begins with the fixed header line of its endpoint: no
    field of the body can alter the first line. *)
Theorem header_line_fixed (p : Payload) :
  PyStr.first_line (text_of p)
  = match p with
    | NewUser _ => "🔔 New User Submitted"
    | QRStarted _ => "📲 <b>QR PAYMENT STARTED 🎉</b>"
    | PayStarted _ => "💳 <b>New UPI PAYMENT STARTED 🎉</b>"
    | PayTimeEnded _ => "⚠️ <b>PAYMENT TIME ENDED</b>"
    | Order _ => "🛒 <b>New Purchase Request</b>"
    end.
Proof. destruct p; reflexivity. Qed.

(** X12. The fallback loses information: a body whose mobile is the empty
    string and a body whose mobile is the text 'Not Provided' itself are
    rendered alike by the four endpoints with a fallback, and so are an empty
    username and the username 'Unknown' of a QR payment. *)
Theorem fallback_not_distinguished (u m pk am i me : string) (sp : bool)
    (price : Z) :
  let qr mobile := {| QRPaymentStarted.username := u;
                      QRPaymentStarted.mobile := mobile;
                      QRPaymentStarted.package := pk;
                      QRPaymentStarted.amount := am;
                      QRPaymentStarted.ip := i;
                      QRPaymentStarted.is_special := sp |} in
  let started mobile := {| PaymentStarted.username := u;
                           PaymentStarted.mobile := mobile;
                           PaymentStarted.package := pk;
                           PaymentStarted.amount := am;
                           PaymentStarted.ip := i;
                           PaymentStarted.method := me |} in
  let ended mobile := {| PaymentTimeEnded.username := u;
                         PaymentTimeEnded.mobile := mobile;
                         PaymentTimeEnded.package := pk;
                         PaymentTimeEnded.amount := am;
                         PaymentTimeEnded.ip := i;
                         PaymentTimeEnded.method := me |} in
  let order mobile := {| OrderNotification.username := u;
                         OrderNotification.mobile := mobile;
                         OrderNotification.package := pk;
                         OrderNotification.price := price;
                         OrderNotification.ip := i |} in
  qr_payment_started_text (qr "") = qr_payment_started_text (qr "Not Provided") /\
  payment_started_text (started "") = payment_started_text (started "Not Provided") /\
  payment_time_ended_text (ended "") = payment_time_ended_text (ended "Not Provided") /\
  order_text (order "") = order_text (order "Not Provided") /\
  qr_payment_started_text
    {| QRPaymentStarted.username := ""; QRPaymentStarted.mobile := m;
       QRPaymentStarted.package := pk; QRPaymentStarted.amount := am;
       QRPaymentStarted.ip := i; QRPaymentStarted.is_special := sp |}
  = qr_payment_started_text
      {| QRPaymentStarted.username := "Unknown"; QRPaymentStarted.mobile := m;
         QRPaymentStarted.package := pk; QRPaymentStarted.amount := am;
         QRPaymentStarted.ip := i; QRPaymentStarted.is_special := sp |}.
Proof. cbv zeta. repeat apply conj; reflexivity. Qed.

(** The digits of an integer hold no fallback text. *)
Lemma digits_free_of_fallback (d : Decimal.uint) :
  PyStr.occurrences "Not Provided" (NilEmpty.string_of_uint d) = 0.
Proof. induction d; cbn; auto. Qed.

Lemma str_of_int_free_of_fallback (n : Z) :
  PyStr.occurrences "Not Provided" (PyStr.str_of_int n) = 0.
Proof.
  unfold PyStr.str_of_int, NilZero.string_of_int, NilZero.string_of_uint.
  destruct (Z.to_int n) as [d|d]; destruct d;
    try reflexivity; try apply (digits_free_of_fallback (_ _));
    cbn [PyStr.occurrences PyStr.starts_with Ascii.eqb Bool.eqb Nat.add];
    try reflexivity; apply (digits_free_of_fallback (_ _)).
Qed.

Section FallbackCount.

Variables (u m pk am i me : string) (sp : bool) (price : Z).

(** In each template with a fallback, 'Not Provided' occurs as often as in
    the interpolated values: the template adds none of its own. *)
Lemma qr_count_fallback :
  PyStr.occurrences "Not Provided"
    (qr_payment_started_text
       {| QRPaymentStarted.username := u; QRPaymentStarted.mobile := m;
          QRPaymentStarted.package := pk; QRPaymentStarted.amount := am;
          QRPaymentStarted.ip := i; QRPaymentStarted.is_special := sp |})
  = PyStr.occurrences "Not Provided" (PyStr.or_else u "Unknown")
    + PyStr.occurrences "Not Provided" (PyStr.or_else m "Not Provided")
    + PyStr.occurrences "Not Provided" pk + PyStr.occurrences "Not Provided" am
    + PyStr.occurrences "Not Provided" i.
Proof.
  open_text.
  generalize (PyStr.or_else u "Unknown") (PyStr.or_else m "Not Provided").
  intros U M. count_labels. destruct sp; cbn; lia.
Qed.

Lemma payment_started_count_fallback :
  PyStr.occurrences "Not Provided"
    (payment_started_text
       {| PaymentStarted.username := u; PaymentStarted.mobile := m;
          PaymentStarted.package := pk; PaymentStarted.amount := am;
          PaymentStarted.ip := i; PaymentStarted.method := me |})
  = PyStr.occurrences "Not Provided" u
    + PyStr.occurrences "Not Provided" (PyStr.or_else m "Not Provided")
    + PyStr.occurrences "Not Provided" pk + PyStr.occurrences "Not Provided" am
    + PyStr.occurrences "Not Provided" me + PyStr.occurrences "Not Provided" i.
Proof.
  open_text. generalize (PyStr.or_else m "Not Provided").
  intros M. count_labels. lia.
Qed.

Lemma payment_time_ended_count_fallback :
  PyStr.occurrences "Not Provided"
    (payment_time_ended_text
       {| PaymentTimeEnded.username := u; PaymentTimeEnded.mobile := m;
          PaymentTimeEnded.package := pk; PaymentTimeEnded.amount := am;
          PaymentTimeEnded.ip := i; PaymentTimeEnded.method := me |})
  = PyStr.occurrences "Not Provided" u
    + PyStr.occurrences "Not Provided" (PyStr.or_else m "Not Provided")
    + PyStr.occurrences "Not Provided" pk + PyStr.occurrences "Not Provided" am
    + PyStr.occurrences "Not Provided" me + PyStr.occurrences "Not Provided" i.
Proof.
  open_text. generalize (PyStr.or_else m "Not Provided").
  intros M. count_labels. lia.
Qed.

Lemma order_count_fallback :
  PyStr.occurrences "Not Provided"
    (order_text
       {| OrderNotification.username := u; OrderNotification.mobile := m;
          OrderNotification.package := pk; OrderNotification.price := price;
          OrderNotification.ip := i |})
  = PyStr.occurrences "Not Provided" u
    + PyStr.occurrences "Not Provided" (PyStr.or_else m "Not Provided")
    + PyStr.occurrences "Not Provided" pk + PyStr.occurrences "Not Provided" i.
Proof.
  open_text.
  generalize (PyStr.or_else m "Not Provided")
             (str_of_int_free_of_fallback price).
  generalize (PyStr.str_of_int price).
  intros P M HP. count_labels. lia.
Qed.

End FallbackCount.

(** The mobile value of a template, once the field is not empty. *)
Ltac find_mobile :=
  repeat lazymatch goal with
         | |- PyStr.contains _ ("📱 Mobile: <code>" ++ _) => fail
         | |- _ => apply PyStrFacts.contains_skip
         end;
  match goal with
  | |- PyStr.contains _ (_ ++ _ ++ _ ++ ?r) =>
      exists "", r; now rewrite !PyStrFacts.append_assoc
  | |- PyStr.contains ?n ?n => apply PyStrFacts.contains_refl
  end.

Ltac split_fields H :=
  repeat match type of H with
         | Forall _ (_ :: _) =>
             let Hx := fresh "Hfree" in
             let Hr := fresh "Hrest" in
             inversion_clear H as [|? ? Hx Hr];
             apply PyStrFacts.not_contains_iff in Hx;
             rename Hr into H
         end.

(** X13. The fallback is used for the empty string only.  With a mobile
    that is not empty, each of the four endpoints with a fallback shows the
    number itself between the code tags after the mobile label, and its text
    holds 'Not Provided' only if a string field of the body does. *)
Theorem fallback_only_when_empty (p : Payload) (m : string) :
  mobile_with_fallback p = Some m ->
  m <> "" ->
  PyStr.contains ("📱 Mobile: <code>" ++ m ++ "</code>") (text_of p) /\
  (Forall (fun v => ~ PyStr.contains "Not Provided" v) (string_fields p) ->
   ~ PyStr.contains "Not Provided" (text_of p)).
Proof.
  intros Hm Hne.
  destruct p as [d|d|d|d|d]; destruct d; cbn in Hm; [discriminate|..];
    injection Hm as ->; (destruct m as [|c m]; [contradiction|]);
    (split; [open_text; find_mobile|]);
    intros Hf; cbn [string_fields] in Hf; cbn [QRPaymentStarted.username QRPaymentStarted.mobile
         QRPaymentStarted.package QRPaymentStarted.amount QRPaymentStarted.ip
         PaymentStarted.username PaymentStarted.mobile PaymentStarted.package
         PaymentStarted.amount PaymentStarted.ip PaymentStarted.method
         PaymentTimeEnded.username PaymentTimeEnded.mobile
         PaymentTimeEnded.package PaymentTimeEnded.amount PaymentTimeEnded.ip
         PaymentTimeEnded.method OrderNotification.username
         OrderNotification.mobile OrderNotification.package
         OrderNotification.ip] in Hf;
    split_fields Hf;
    apply PyStrFacts.not_contains_iff; unfold text_of.
  - rewrite qr_count_fallback. cbn [PyStr.or_else].
    rewrite (or_else_free "Not Provided" _ "Unknown" eq_refl
               (proj2 (PyStrFacts.not_contains_iff _ _) Hfree)).
    lia.
  - rewrite payment_started_count_fallback. cbn [PyStr.or_else]. lia.
  - rewrite payment_time_ended_count_fallback. cbn [PyStr.or_else]. lia.
  - rewrite order_count_fallback. cbn [PyStr.or_else]. lia.
Qed.

Lemma fallback_only_when_empty_witness :
  PyStr.contains "📱 Mobile: <code>9999999999</code>"
    (qr_payment_started_text Sample.qr) /\
  ~ PyStr.contains "Not Provided" (qr_payment_started_text Sample.qr).
Proof.
  assert (Hne : "9999999999" <> "") by discriminate.
  destruct (fallback_only_when_empty (QRStarted Sample.qr) "9999999999"
              eq_refl Hne) as [Hshown Hfree].
  split; [exact Hshown|]. apply Hfree.
  repeat (apply Forall_cons;
          [apply PyStrFacts.not_contains_iff; vm_compute; reflexivity|]).
  apply Forall_nil.
Defined.

Lemma append_length (a b : string) :
  String.length (a ++ b) = String.length a + String.length b.
Proof. induction a as [|x a IH]; simpl; [reflexivity | now rewrite IH]. Qed.

Lemma append_inj_head (a x y : string) : a ++ x = a ++ y -> x = y.
Proof.
  induction a as [|c a IH]; simpl; intros H; [exact H|].
  injection H as H. now apply IH.
Qed.

Lemma append_inj_tail (a b c : string) : a ++ c = b ++ c -> a = b.
Proof.
  intros H.
  assert (Hlen : String.length a = String.length b).
  { apply (f_equal String.length) in H. rewrite !append_length in H. lia. }
  revert b H Hlen. induction a as [|x a IH]; intros [|y b] H Hlen;
    simpl in *; try discriminate; [reflexivity|].
  injection H as -> H. f_equal. apply IH; [exact H | lia].
Qed.

Lemma to_int_proper (n : Z) :
  Z.to_int n <> Decimal.Pos Decimal.Nil /\ Z.to_int n <> Decimal.Neg Decimal.Nil.
Proof.
  destruct n as [|q|q]; cbn; split; try discriminate;
    intros [= H]; now apply DecimalPos.Unsigned.to_uint_nonnil in H.
Qed.

(** [str] of an integer can be read back: it is injective. *)
Lemma str_of_int_inj (n n' : Z) :
  PyStr.str_of_int n = PyStr.str_of_int n' -> n = n'.
Proof.
  intros H. apply (f_equal NilZero.int_of_string) in H.
  unfold PyStr.str_of_int in H.
  destruct (to_int_proper n) as [Hp Hn]. destruct (to_int_proper n') as [Hp' Hn'].
  rewrite !NilZero.isi in H by assumption.
  injection H as H. apply (f_equal Z.of_int) in H.
  now rewrite !DecimalZ.of_to in H.
Qed.

(** X14. The text of an order tells its price: two orders that differ in
    their price only are rendered differently. *)
Theorem order_text_tells_price (u m pk i : string) (n n' : Z) :
  n <> n' ->
  order_text {| OrderNotification.username := u; OrderNotification.mobile := m;
                OrderNotification.package := pk; OrderNotification.price := n;
                OrderNotification.ip := i |}
  <> order_text {| OrderNotification.username := u; OrderNotification.mobile := m;
                   OrderNotification.package := pk; OrderNotification.price := n';
                   OrderNotification.ip := i |}.
Proof.
  intros Hn H. apply Hn. unfold order_text in H.
  cbn [OrderNotification.username OrderNotification.mobile
       OrderNotification.package OrderNotification.price OrderNotification.ip] in H.
  repeat apply append_inj_head in H.
  apply append_inj_tail in H. now apply str_of_int_inj.
Qed.

Lemma order_text_tells_price_witness :
  order_text Sample.order
  <> order_text {| OrderNotification.username := "alice";
                   OrderNotification.mobile := "";
                   OrderNotification.package := "Gold";
                   OrderNotification.price := 500;
                   OrderNotification.ip := "1.2.3.4" |}.
Proof.
  apply (order_text_tells_price "alice" "" "Gold" "1.2.3.4" 499 500).
  discriminate.
Defined.

(** * Further properties of the configuration *)

(** X15. The families are independent: a handler behaves alike under two
    configurations that agree on the token of its family and on the chat
    destination, so a missing token of one family leaves the others
    working. *)
Theorem other_families_irrelevant (cfg cfg' : Config) (p : Payload) :
  bot_token_of cfg p = bot_token_of cfg' p ->
  CHAT_ID cfg = CHAT_ID cfg' ->
  notify cfg p = notify cfg' p.
Proof.
  intros Ht Hc. rewrite !notify_eq, Ht, Hc. reflexivity.
Qed.

Lemma other_families_irrelevant_witness :
  notify Sample.cfg (QRStarted Sample.qr)
  = notify Sample.cfg_no_order (QRStarted Sample.qr).
Proof.
  apply (other_families_irrelevant Sample.cfg Sample.cfg_no_order
           (QRStarted Sample.qr)); reflexivity.
Defined.

Lemma truthy_some (x : option string) :
  PyStr.truthy x = true -> exists s, x = Some s /\ s <> "".
Proof.
  destruct x as [[|c s]|]; cbn; try discriminate.
  intros _. exists (String c s). split; [reflexivity | discriminate].
Qed.

(** X16. Whatever a handler posts goes to the sendMessage URL of the token
    of its family, a token and a chat destination that are set and not empty,
    with a timeout of 10 seconds and the keys chat_id, text (the rendered
    text) and parse_mode ('HTML') as JSON body; in particular the URL is
    never built from a missing token. *)
Theorem outbound_request_of_route (cfg : Config) (p : Payload) (net : Transport)
    (rq : Request) :
  In rq (fst (notify cfg p net [])) ->
  exists token chat,
    match p with
    | NewUser _ => BOT_TOKEN_NEW_USER cfg
    | Order _ => BOT_TOKEN_ORDER cfg
    | QRStarted _ | PayStarted _ | PayTimeEnded _ => BOT_TOKEN_QR cfg
    end = Some token /\
    token <> "" /\
    CHAT_ID cfg = Some chat /\
    chat <> "" /\
    rq = {| req_url := "https://api.telegram.org/bot" ++ token ++ "/sendMessage";
            req_json := JDict [("chat_id", JStr chat);
                               ("text", JStr (text_of p));
                               ("parse_mode", JStr "HTML")];
            req_timeout := 10 |}.
Proof.
  intros Hin. destruct (notify_called cfg p net rq Hin) as (Hb & Hc & ->).
  apply truthy_some in Hb as (token & Hb & Hbne).
  apply truthy_some in Hc as (chat & Hc & Hcne).
  exists token, chat.
  unfold telegram_request. rewrite Hb, Hc.
  destruct p; cbn [bot_token_of] in *; auto 6.
Qed.

Lemma outbound_request_of_route_witness :
  exists token chat,
    BOT_TOKEN_ORDER Sample.cfg = Some token /\
    token <> "" /\
    CHAT_ID Sample.cfg = Some chat /\
    chat <> "" /\
    telegram_request (Some "333:ccc") (Some "-1001") (order_text Sample.order) "HTML"
    = {| req_url := "https://api.telegram.org/bot" ++ token ++ "/sendMessage";
         req_json := JDict [("chat_id", JStr chat);
                            ("text", JStr (order_text Sample.order));
                            ("parse_mode", JStr "HTML")];
         req_timeout := 10 |}.
Proof.
  apply (outbound_request_of_route Sample.cfg (Order Sample.order) Sample.net_ok).
  left. reflexivity.
Defined.

(** The digits of an integer do not spell 'Unknown' either. *)
Lemma digits_free_of_unknown (d : Decimal.uint) :
  PyStr.occurrences "Unknown" (NilEmpty.string_of_uint d) = 0.
Proof. induction d; cbn; auto. Qed.

Lemma str_of_int_free_of_unknown (n : Z) :
  PyStr.occurrences "Unknown" (PyStr.str_of_int n) = 0.
Proof.
  unfold PyStr.str_of_int, NilZero.string_of_int, NilZero.string_of_uint.
  destruct (Z.to_int n) as [d|d]; destruct d;
    try reflexivity; try apply (digits_free_of_unknown (_ _));
    cbn [PyStr.occurrences PyStr.starts_with Ascii.eqb Bool.eqb Nat.add];
    try reflexivity; apply (digits_free_of_unknown (_ _)).
Qed.

Section UnknownCount.

Variables (u m pk am i me : string) (price : Z).

Lemma payment_started_count_unknown :
  PyStr.occurrences "Unknown"
    (payment_started_text
       {| PaymentStarted.username := u; PaymentStarted.mobile := m;
          PaymentStarted.package := pk; PaymentStarted.amount := am;
          PaymentStarted.ip := i; PaymentStarted.method := me |})
  = PyStr.occurrences "Unknown" u
    + PyStr.occurrences "Unknown" (PyStr.or_else m "Not Provided")
    + PyStr.occurrences "Unknown" pk + PyStr.occurrences "Unknown" am
    + PyStr.occurrences "Unknown" me + PyStr.occurrences "Unknown" i.
Proof.
  open_text. generalize (PyStr.or_else m "Not Provided").
  intros M. count_labels. lia.
Qed.

Lemma payment_time_ended_count_unknown :
  PyStr.occurrences "Unknown"
    (payment_time_ended_text
       {| PaymentTimeEnded.username := u; PaymentTimeEnded.mobile := m;
          PaymentTimeEnded.package := pk; PaymentTimeEnded.amount := am;
          PaymentTimeEnded.ip := i; PaymentTimeEnded.method := me |})
  = PyStr.occurrences "Unknown" u
    + PyStr.occurrences "Unknown" (PyStr.or_else m "Not Provided")
    + PyStr.occurrences "Unknown" pk + PyStr.occurrences "Unknown" am
    + PyStr.occurrences "Unknown" me + PyStr.occurrences "Unknown" i.
Proof.
  open_text. generalize (PyStr.or_else m "Not Provided").
  intros M. count_labels. lia.
Qed.

Lemma order_count_unknown :
  PyStr.occurrences "Unknown"
    (order_text
       {| OrderNotification.username := u; OrderNotification.mobile := m;
          OrderNotification.package := pk; OrderNotification.price := price;
          OrderNotification.ip := i |})
  = PyStr.occurrences "Unknown" u
    + PyStr.occurrences "Unknown" (PyStr.or_else m "Not Provided")
    + PyStr.occurrences "Unknown" pk + PyStr.occurrences "Unknown" i.
Proof.
  open_text.
  generalize (PyStr.or_else m "Not Provided")
             (str_of_int_free_of_unknown price).
  generalize (PyStr.str_of_int price).
  intros P M HP. count_labels. lia.
Qed.

End UnknownCount.

(** X17. Only the QR endpoint has a fallback for the username.  The
    payment-started, payment-time-ended and order endpoints render an empty
    username as an empty pair of code tags after the username label, and
    their text holds 'Unknown' only if a string field of the body does. *)
Theorem empty_username_left_empty (p : Payload) :
  username_without_fallback p = Some "" ->
  PyStr.contains "👤 Username: <code></code>" (text_of p) /\
  (Forall (fun v => ~ PyStr.contains "Unknown" v) (string_fields p) ->
   ~ PyStr.contains "Unknown" (text_of p)).
Proof.
  intros Hu.
  destruct p as [d|d|d|d|d]; destruct d; cbn in Hu; try discriminate;
    injection Hu as ->; (split; [open_text; find_fragment|]);
    intros Hf; cbn [string_fields] in Hf;
    cbn [PaymentStarted.username PaymentStarted.mobile PaymentStarted.package
         PaymentStarted.amount PaymentStarted.ip PaymentStarted.method
         PaymentTimeEnded.username PaymentTimeEnded.mobile
         PaymentTimeEnded.package PaymentTimeEnded.amount PaymentTimeEnded.ip
         PaymentTimeEnded.method OrderNotification.username
         OrderNotification.mobile OrderNotification.package
         OrderNotification.ip] in Hf;
    match type of Hf with
    | Forall _ (_ :: ?mob :: _) =>
        assert (Hmob : PyStr.occurrences "Unknown" (PyStr.or_else mob "Not Provided") = 0)
          by (apply or_else_free; [reflexivity|];
              inversion_clear Hf as [|? ? _ Hf']; now inversion_clear Hf')
    end;
    split_fields Hf; apply PyStrFacts.not_contains_iff; unfold text_of.
  - rewrite payment_started_count_unknown, Hmob. lia.
  - rewrite payment_time_ended_count_unknown, Hmob. lia.
  - rewrite order_count_unknown, Hmob. lia.
Qed.

Lemma empty_username_left_empty_witness :
  PyStr.contains "👤 Username: <code></code>"
    (order_text {| OrderNotification.username := "";
                   OrderNotification.mobile := "9999999999";
                   OrderNotification.package := "Gold";
                   OrderNotification.price := 499;
                   OrderNotification.ip := "1.2.3.4" |}) /\
  ~ PyStr.contains "Unknown"
      (order_text {| OrderNotification.username := "";
                     OrderNotification.mobile := "9999999999";
                     OrderNotification.package := "Gold";
                     OrderNotification.price := 499;
                     OrderNotification.ip := "1.2.3.4" |}).
Proof.
  destruct (empty_username_left_empty
              (Order {| OrderNotification.username := "";
                        OrderNotification.mobile := "9999999999";
                        OrderNotification.package := "Gold";
                        OrderNotification.price := 499;
                        OrderNotification.ip := "1.2.3.4" |}) eq_refl)
    as [Hshown Hfree].
  split; [exact Hshown|]. apply Hfree.
  repeat (apply Forall_cons;
          [apply PyStrFacts.not_contains_iff; vm_compute; reflexivity|]).
  apply Forall_nil.
Defined.
